(** * Art of Bookmarks: the client-side bookmark store, its realtime
      reconciliation, the mutation gateway and the OAuth callback.

    Shallow embedding of
      - src/app/bookmarks/page.tsx        (BookmarksPage)
      - src/components/BookmarkForm.tsx   (BookmarkForm)
      - src/components/BookmarkList.tsx   (BookmarkList)
      - the route handler of the OAuth callback (GET)

    React state is a record per component; an event handler is a
    computation in a state-and-exception monad over the three component
    states, the requests sent to the backing store and the environment
    the handler reads (auth session, clock, backing store). *)

From Stdlib Require Import String Ascii List Bool Arith NArith Lia.
Import ListNotations.
Local Open Scope string_scope.
Local Open Scope list_scope.
Local Open Scope nat_scope.

(** ** JavaScript string primitives

    A string stands for a well-formed JavaScript string (one without
    lone surrogates) and holds its UTF-8 encoding, byte by byte. Equality
    and the substring test are the same on the encoding as on the code
    units. Case mapping is the platform's and is read from the
    environment (see [Env]). *)
Module JS.

(** The code points that [String.prototype.trim] removes: the
    ECMAScript WhiteSpace code points (TAB, VT, FF, ZWNBSP and every
    code point of the Unicode category Zs) and the LineTerminator code
    points (LF, CR, LS, PS). *)
Definition isWhiteSpace (codePoint : N) : bool :=
  (((9 <=? codePoint) && (codePoint <=? 13))  (* TAB LF VT FF CR *)
   || (codePoint =? 32)                        (* U+0020 SPACE *)
   || (codePoint =? 160)                       (* U+00A0 NBSP *)
   || (codePoint =? 5760)                      (* U+1680 *)
   || ((8192 <=? codePoint) && (codePoint <=? 8202))  (* U+2000..U+200A *)
   || (codePoint =? 8232)                      (* U+2028 LS *)
   || (codePoint =? 8233)                      (* U+2029 PS *)
   || (codePoint =? 8239)                      (* U+202F *)
   || (codePoint =? 8287)                      (* U+205F *)
   || (codePoint =? 12288)                     (* U+3000 *)
   || (codePoint =? 65279))%N.                 (* U+FEFF ZWNBSP *)

(** A continuation byte of a UTF-8 sequence. *)
Definition continuation (b : N) : bool := ((128 <=? b) && (b <? 192))%N.

(** The number of bytes of the white-space code point that [s] starts
    with, 0 when it starts with none. White space has code points below
    U+10000, so its encoding is one, two or three bytes long. *)
Definition whiteSpaceAt (s : string) : nat :=
  match s with
  | EmptyString => 0
  | String a r1 =>
      let a := N_of_ascii a in
      if (a <? 128)%N then (if isWhiteSpace a then 1 else 0)
      else
        match r1 with
        | EmptyString => 0
        | String b r2 =>
            let b := N_of_ascii b in
            if ((194 <=? a) && (a <? 224))%N then
              if continuation b
                 && isWhiteSpace ((a - 192) * 64 + (b - 128))%N
              then 2 else 0
            else
              match r2 with
              | EmptyString => 0
              | String c _ =>
                  let c := N_of_ascii c in
                  if ((224 <=? a) && (a <? 240))%N
                     && continuation b && continuation c
                     && isWhiteSpace
                          ((a - 224) * 4096 + (b - 128) * 64 + (c - 128))%N
                  then 3 else 0
              end
        end
  end.

(** [s.trimStart()]: the white-space code points at the start are
    dropped one after the other. *)
Fixpoint trimStart (s : string) : string :=
  match s with
  | EmptyString => EmptyString
  | String _ r1 =>
      match whiteSpaceAt s, r1 with
      | 1, _ => trimStart r1
      | 2, String _ r2 => trimStart r2
      | 3, String _ (String _ r3) => trimStart r3
      | _, _ => s
      end
  end.

(** [s] consists of white-space code points only. *)
Fixpoint allWhiteSpace (s : string) : bool :=
  match s with
  | EmptyString => true
  | String _ r1 =>
      match whiteSpaceAt s, r1 with
      | 1, _ => allWhiteSpace r1
      | 2, String _ r2 => allWhiteSpace r2
      | 3, String _ (String _ r3) => allWhiteSpace r3
      | _, _ => false
      end
  end.

(** [s.trimEnd()]: [s] is cut where what follows is white space only. *)
Fixpoint trimEnd (s : string) : string :=
  match s with
  | EmptyString => EmptyString
  | String c s' =>
      if allWhiteSpace s then EmptyString else String c (trimEnd s')
  end.

(** [s.trim()]. *)
Definition trim (s : string) : string := trimEnd (trimStart s).

(** [s.includes(q)]: [q] occurs in [s] as a contiguous run. *)
Fixpoint includes (s q : string) : bool :=
  String.prefix q s ||
  match s with
  | EmptyString => false
  | String _ s' => includes s' q
  end.

(** Truthiness of a string: only the empty string is falsy. *)
Definition truthy (s : string) : bool :=
  match s with EmptyString => false | _ => true end.

(** [a || b] on strings. *)
Definition or_else (a b : string) : string := if truthy a then a else b.

(** [a || null] on a string. *)
Definition or_null (a : string) : option string :=
  if truthy a then Some a else None.

(** [a === b] on strings. *)
Definition strict_eq (a b : string) : bool := String.eqb a b.

End JS.

(** ** Data model *)

(** interface Bookmark, as declared in page.tsx and BookmarkList.tsx. *)
Record Bookmark : Type := mkBookmark {
  id : string;
  url : string;
  title : string;
  description : option string;
  is_favorite : option bool;
  created_at : string;
  updated_at : string;
  user_id : string
}.

(** The part of the SDK's [User] that the page reads. *)
Record User : Type := mkUser { uid : string }.

(** The part of the SDK's [Session] that the page reads. *)
Record Session : Type := mkSession { user : User }.

(** ** Change feed: the payload of a postgres_changes event *)

Inductive EventType : Type := INSERT | UPDATE | DELETE.

Record Payload : Type := mkPayload {
  eventType : EventType;
  new : Bookmark;
  old : Bookmark
}.

(** ** Bookmark Store: the three state updaters of the realtime callback

    Each one is the function passed to [setBookmarks] guarded by the
    ownership test that precedes it in [setupRealtimeListener]. *)
Module Store.

(** INSERT branch: [setBookmarks((prev) => [newRow, ...prev])]. *)
Definition ApplyInsert (me : string) (newRow : Bookmark)
    (prev : list Bookmark) : list Bookmark :=
  if negb (JS.strict_eq (user_id newRow) me) then prev
  else newRow :: prev.

(** DELETE branch: [prev.filter((b) => b.id !== oldRow.id)]. *)
Definition ApplyDelete (me : string) (oldRow : Bookmark)
    (prev : list Bookmark) : list Bookmark :=
  if negb (JS.strict_eq (user_id oldRow) me) then prev
  else filter (fun b => negb (JS.strict_eq (id b) (id oldRow))) prev.

(** UPDATE branch: [prev.map((b) => b.id === newRow.id ? newRow : b)]. *)
Definition ApplyUpdate (me : string) (newRow : Bookmark)
    (prev : list Bookmark) : list Bookmark :=
  if negb (JS.strict_eq (user_id newRow) me) then prev
  else map (fun b => if JS.strict_eq (id b) (id newRow) then newRow else b) prev.

(** The callback registered with [.on("postgres_changes", ...)], as a
    function of the list it updates. *)
Definition onChange (me : string) (payload : Payload)
    (prev : list Bookmark) : list Bookmark :=
  let newRow := new payload in
  let oldRow := old payload in
  match eventType payload with
  | INSERT => ApplyInsert me newRow prev
  | DELETE => ApplyDelete me oldRow prev
  | UPDATE => ApplyUpdate me newRow prev
  end.

(** The row whose owner the callback tests for an event. *)
Definition guardedRow (payload : Payload) : Bookmark :=
  match eventType payload with
  | INSERT | UPDATE => new payload
  | DELETE => old payload
  end.

End Store.

(** ** The backing store as the client sees it *)
Module Postgrest.

(** [.eq(column, value)]. *)
Inductive Filter : Type := eq (column value : string).

(** The object given to [.insert([...])] by [handleAddBookmark]. *)
Record InsertRow : Type := mkInsertRow {
  ins_url : string;
  ins_title : string;
  ins_description : option string;
  ins_user_id : string
}.

(** The two objects given to [.update(...)]: by [handleUpdateBookmark]
    and by [handleToggleFavorite]. *)
Inductive UpdateValues : Type :=
| BookmarkFields (title url : string) (description : option string)
                 (updated_at : string)
| FavoriteFields (is_favorite : bool) (updated_at : string).

(** A query built on [supabase.from(table)]. *)
Inductive Request : Type :=
| select (table columns : string) (filters : list Filter)
         (order_column : string) (ascending : bool)
| insert (table : string) (rows : list InsertRow)
| update (table : string) (values : UpdateValues) (filters : list Filter)
| delete (table : string) (filters : list Filter).

(** The [{ data, error }] object a query resolves to. *)
Record Response : Type := mkResponse {
  data : option (list Bookmark);
  error : option string
}.

(** What [await query] gives: the promise fulfils or rejects. *)
Inductive Awaited : Type :=
| Fulfilled (r : Response)
| Rejected (reason : string).

(** The request did not succeed at the backing store. *)
Definition failed (a : Awaited) : bool :=
  match a with
  | Fulfilled r => match error r with Some _ => true | None => false end
  | Rejected _ => true
  end.

(** Text columns of the [bookmarks] table. *)
Definition column_text (c : string) (b : Bookmark) : option string :=
  if String.eqb c "id" then Some (id b)
  else if String.eqb c "user_id" then Some (user_id b)
  else if String.eqb c "url" then Some (url b)
  else if String.eqb c "title" then Some (title b)
  else if String.eqb c "description" then description b
  else if String.eqb c "created_at" then Some (created_at b)
  else if String.eqb c "updated_at" then Some (updated_at b)
  else None.

Definition satisfies (f : Filter) (b : Bookmark) : bool :=
  match f with
  | eq c v =>
      match column_text c b with
      | Some x => String.eqb x v
      | None => false
      end
  end.

Definition sort_key (c : string) (b : Bookmark) : string :=
  match column_text c b with Some x => x | None => "" end.

(** [.order(column, { ascending })] as a stable insertion sort on the
    column's text. *)
Fixpoint place (c : string) (ascending : bool) (b : Bookmark)
    (l : list Bookmark) : list Bookmark :=
  match l with
  | [] => [b]
  | x :: l' =>
      let before :=
        if ascending then String.leb (sort_key c b) (sort_key c x)
        else String.leb (sort_key c x) (sort_key c b) in
      if before then b :: l else x :: place c ascending b l'
  end.

Definition order (c : string) (ascending : bool)
    (l : list Bookmark) : list Bookmark :=
  fold_right (place c ascending) [] l.

(** A backing store holding the rows [db] and answering reads: the
    rows that satisfy every [.eq] filter, ordered as asked. Writes are
    acknowledged without error. *)
Definition serve (db : list Bookmark) (r : Request) : Awaited :=
  match r with
  | select _ _ filters c asc =>
      Fulfilled
        {| data := Some (order c asc
             (filter (fun b => forallb (fun f => satisfies f b) filters) db));
           error := None |}
  | _ => Fulfilled {| data := None; error := None |}
  end.

End Postgrest.

(** ** Component state *)

(** [useState] cells of BookmarksPage. *)
Module PageState.
Record t : Type := mk {
  bookmarks : list Bookmark;
  filteredBookmarks : list Bookmark;
  isLoading : bool;
  user : option User;
  error : option string;
  searchQuery : string;
  showFavoritesOnly : bool
}.

(** The initial values given to [useState]. *)
Definition initial : t :=
  mk [] [] true None None "" false.
End PageState.

(** [useState] cells of BookmarkForm. *)
Module FormState.
Record t : Type := mk {
  url : string;
  title : string;
  description : string;
  isLoading : bool;
  urlError : string;
  successMessage : string
}.

Definition initial : t := mk "" "" "" false "" "".
End FormState.

(** [useState] cells of BookmarkList, and the ids of the rendered items
    that a tween has moved out of view ([opacity: 0, x: 100]). *)
Module ListState.
Record t : Type := mk {
  deleting : option string;
  updating : option string;
  editingId : option string;
  editTitle : string;
  editUrl : string;
  editDescription : string;
  tweenedOut : list string
}.

Definition initial : t := mk None None None "" "" "" [].
End ListState.

(** What a handler reads from outside the components. *)
Record Env : Type := mkEnv {
  getSession : option Session;          (* supabase.auth.getSession() *)
  toISOString_now : string;             (* new Date().toISOString() *)
  backend : Postgrest.Request -> Postgrest.Awaited;
  URL_parses : string -> bool;          (* new URL(s) does not throw *)
  toLowerCase : string -> string        (* s.toLowerCase() *)
}.

(** The three component states and the requests sent so far. *)
Record World : Type := mkWorld {
  page : PageState.t;
  form : FormState.t;
  blist : ListState.t;
  sent : list Postgrest.Request
}.

Definition initialWorld : World :=
  mkWorld PageState.initial FormState.initial ListState.initial [].

(** ** Handlers: state and exceptions *)

Inductive Completion (A : Type) : Type :=
| Normal (a : A)
| Throw (e : string).
Arguments Normal {A} a.
Arguments Throw {A} e.

Definition Eff (A : Type) : Type := World -> Completion A * World.

Definition ret {A} (a : A) : Eff A := fun w => (Normal a, w).

Definition bind {A B} (m : Eff A) (k : A -> Eff B) : Eff B :=
  fun w =>
    match m w with
    | (Normal a, w') => k a w'
    | (Throw e, w') => (Throw e, w')
    end.

Definition throw {A} (e : string) : Eff A := fun w => (Throw e, w).

(** [try { body } catch (e) { handler e }]. *)
Definition try_catch {A} (body : Eff A) (handler : string -> Eff A) : Eff A :=
  fun w =>
    match body w with
    | (Normal a, w') => (Normal a, w')
    | (Throw e, w') => handler e w'
    end.

(** [try { body } finally { cleanup }]. *)
Definition try_finally {A} (body : Eff A) (cleanup : Eff unit) : Eff A :=
  fun w =>
    match body w with
    | (c, w') =>
        match cleanup w' with
        | (Normal _, w'') => (c, w'')
        | (Throw e, w'') => (Throw e, w'')
        end
    end.

Declare Scope eff_scope.
Delimit Scope eff_scope with eff.
Notation "x <- m ;; k" := (bind m (fun x => k))
  (at level 61, m at next level, right associativity) : eff_scope.
Notation "m ;; k" := (bind m (fun _ => k))
  (at level 61, right associativity) : eff_scope.
Local Open Scope eff_scope.

Definition exec {A} (m : Eff A) (w : World) : World := snd (m w).
Definition completion {A} (m : Eff A) (w : World) : Completion A := fst (m w).

Definition modifyPage (f : PageState.t -> PageState.t) : Eff unit :=
  fun w => (Normal tt, mkWorld (f (page w)) (form w) (blist w) (sent w)).
Definition modifyForm (f : FormState.t -> FormState.t) : Eff unit :=
  fun w => (Normal tt, mkWorld (page w) (f (form w)) (blist w) (sent w)).
Definition modifyList (f : ListState.t -> ListState.t) : Eff unit :=
  fun w => (Normal tt, mkWorld (page w) (form w) (f (blist w)) (sent w)).
Definition readWorld {A} (f : World -> A) : Eff A :=
  fun w => (Normal (f w), w).

(** ** src/app/bookmarks/page.tsx *)
Module BookmarksPage.

Definition setBookmarks (f : list Bookmark -> list Bookmark) : Eff unit :=
  modifyPage (fun s =>
    PageState.mk
      (f (PageState.bookmarks s)) (PageState.filteredBookmarks s)
      (PageState.isLoading s) (PageState.user s) (PageState.error s)
      (PageState.searchQuery s) (PageState.showFavoritesOnly s)).

Definition setFilteredBookmarks (l : list Bookmark) : Eff unit :=
  modifyPage (fun s =>
    PageState.mk
      (PageState.bookmarks s) l (PageState.isLoading s) (PageState.user s)
      (PageState.error s) (PageState.searchQuery s)
      (PageState.showFavoritesOnly s)).

Definition setIsLoading (b : bool) : Eff unit :=
  modifyPage (fun s =>
    PageState.mk
      (PageState.bookmarks s) (PageState.filteredBookmarks s) b
      (PageState.user s) (PageState.error s) (PageState.searchQuery s)
      (PageState.showFavoritesOnly s)).

Definition setUser (u : option User) : Eff unit :=
  modifyPage (fun s =>
    PageState.mk
      (PageState.bookmarks s) (PageState.filteredBookmarks s)
      (PageState.isLoading s) u (PageState.error s) (PageState.searchQuery s)
      (PageState.showFavoritesOnly s)).

Definition setError (e : option string) : Eff unit :=
  modifyPage (fun s =>
    PageState.mk
      (PageState.bookmarks s) (PageState.filteredBookmarks s)
      (PageState.isLoading s) (PageState.user s) e (PageState.searchQuery s)
      (PageState.showFavoritesOnly s)).

Definition setSearchQuery (q : string) : Eff unit :=
  modifyPage (fun s =>
    PageState.mk
      (PageState.bookmarks s) (PageState.filteredBookmarks s)
      (PageState.isLoading s) (PageState.user s) (PageState.error s) q
      (PageState.showFavoritesOnly s)).

Definition setShowFavoritesOnly (f : bool) : Eff unit :=
  modifyPage (fun s =>
    PageState.mk
      (PageState.bookmarks s) (PageState.filteredBookmarks s)
      (PageState.isLoading s) (PageState.user s) (PageState.error s)
      (PageState.searchQuery s) f).

(** *** The filter effect (page.tsx, 47-61) *)

(** [Boolean(bookmark.is_favorite)]. *)
Definition Boolean (f : option bool) : bool :=
  match f with Some true => true | _ => false end.

Section FilterEffect.
Variable env : Env.

(** [(bookmark.description?.toLowerCase() || "")]. *)
Definition descriptionLower (d : option string) : string :=
  match d with
  | Some s => JS.or_else (toLowerCase env s) ""
  | None => ""
  end.

(** The callback given to [bookmarks.filter]. *)
Definition keep (searchQuery : string) (showFavoritesOnly : bool)
    (bookmark : Bookmark) : bool :=
  let matchesFavorite :=
    negb showFavoritesOnly || Boolean (is_favorite bookmark) in
  let lowerSearch := toLowerCase env searchQuery in
  let matchesSearch :=
    JS.includes (toLowerCase env (title bookmark)) lowerSearch ||
    JS.includes (toLowerCase env (url bookmark)) lowerSearch ||
    JS.includes (descriptionLower (description bookmark)) lowerSearch in
  matchesFavorite && matchesSearch.

Definition Filter (searchQuery : string) (showFavoritesOnly : bool)
    (bookmarks : list Bookmark) : list Bookmark :=
  filter (keep searchQuery showFavoritesOnly) bookmarks.

(** The body of the effect: reads the three dependencies from the
    state and stores the derived list. *)
Definition filterEffect : Eff unit :=
  s <- readWorld page ;;
  let filtered :=
    Filter (PageState.searchQuery s) (PageState.showFavoritesOnly s)
      (PageState.bookmarks s) in
  setFilteredBookmarks filtered.

End FilterEffect.

Section Handlers.
Variable env : Env.

(** [await query]: the request is sent; a rejected promise throws. *)
Definition await (r : Postgrest.Request) : Eff Postgrest.Response :=
  fun w =>
    let w' := mkWorld (page w) (form w) (blist w) (sent w ++ [r]) in
    match backend env r with
    | Postgrest.Fulfilled resp => (Normal resp, w')
    | Postgrest.Rejected e => (Throw e, w')
    end.

(** [if (err) throw err]. *)
Definition throwIf (err : option string) : Eff unit :=
  match err with
  | Some e => throw e
  | None => ret tt
  end.

(** page.tsx, 107-128. *)
Definition loadBookmarks : Eff unit :=
  try_catch
    (match getSession env with
     | None => ret tt
     | Some session =>
         r <- await (Postgrest.select "bookmarks" "*"
                       [Postgrest.eq "user_id" (uid (user session))]
                       "created_at" false) ;;
         throwIf (Postgrest.error r) ;;
         setBookmarks (fun _ =>
           match Postgrest.data r with Some d => d | None => [] end) ;;
         setError None
     end)
    (fun _ => setError (Some "Failed to load bookmarks")).

(** The callback registered by [setupRealtimeListener] (page.tsx,
    147-178); [session] is the one captured when the listener was
    set up. *)
Definition onPostgresChanges (session : Session) (payload : Payload)
    : Eff unit :=
  setBookmarks (Store.onChange (uid (user session)) payload).

(** page.tsx, 183-209. *)
Definition handleAddBookmark (url title description : string) : Eff unit :=
  try_catch
    (match getSession env with
     | None => ret tt
     | Some session =>
         r <- await (Postgrest.insert "bookmarks"
                [ {| Postgrest.ins_url := url;
                     Postgrest.ins_title := title;
                     Postgrest.ins_description := JS.or_null description;
                     Postgrest.ins_user_id := uid (user session) |} ]) ;;
         throwIf (Postgrest.error r)
     end)
    (fun _ => setError (Some "Failed to add bookmark")).

(** page.tsx, 211-226. *)
Definition handleDeleteBookmark (id : string) : Eff unit :=
  try_catch
    (u <- readWorld (fun w => PageState.user (page w)) ;;
     match u with
     | None => ret tt
     | Some user =>
         r <- await (Postgrest.delete "bookmarks"
                [Postgrest.eq "id" id; Postgrest.eq "user_id" (uid user)]) ;;
         throwIf (Postgrest.error r)
     end)
    (fun _ => setError (Some "Failed to delete bookmark")).

(** [updates.description?.trim() || null]. *)
Definition descriptionTrimmed (d : option string) : option string :=
  match d with
  | Some s => JS.or_null (JS.trim s)
  | None => None
  end.

(** page.tsx, 228-251; [updates] is the picked title, url and
    description. *)
Definition handleUpdateBookmark (id : string)
    (updates : string * string * option string) : Eff unit :=
  let '(u_title, u_url, u_description) := updates in
  try_catch
    (u <- readWorld (fun w => PageState.user (page w)) ;;
     match u with
     | None => ret tt
     | Some user =>
         r <- await (Postgrest.update "bookmarks"
                (Postgrest.BookmarkFields
                   (JS.trim u_title) (JS.trim u_url)
                   (descriptionTrimmed u_description)
                   (toISOString_now env))
                [Postgrest.eq "id" id; Postgrest.eq "user_id" (uid user)]) ;;
         throwIf (Postgrest.error r)
     end)
    (fun _ => setError (Some "Failed to update bookmark")).

(** page.tsx, 253-273. *)
Definition handleToggleFavorite (id : string) (isFavorite : bool) : Eff unit :=
  try_catch
    (u <- readWorld (fun w => PageState.user (page w)) ;;
     match u with
     | None => ret tt
     | Some user =>
         r <- await (Postgrest.update "bookmarks"
                (Postgrest.FavoriteFields (negb isFavorite)
                   (toISOString_now env))
                [Postgrest.eq "id" id; Postgrest.eq "user_id" (uid user)]) ;;
         throwIf (Postgrest.error r)
     end)
    (fun _ => setError
       (Some "Failed to update favorite. Make sure your bookmarks table has an is_favorite column.")).

End Handlers.
End BookmarksPage.

(** ** src/components/BookmarkForm.tsx *)
Module BookmarkForm.

Definition setUrl (v : string) : Eff unit :=
  modifyForm (fun s =>
    FormState.mk v (FormState.title s) (FormState.description s)
      (FormState.isLoading s) (FormState.urlError s) (FormState.successMessage s)).

Definition setTitle (v : string) : Eff unit :=
  modifyForm (fun s =>
    FormState.mk (FormState.url s) v (FormState.description s)
      (FormState.isLoading s) (FormState.urlError s) (FormState.successMessage s)).

Definition setDescription (v : string) : Eff unit :=
  modifyForm (fun s =>
    FormState.mk (FormState.url s) (FormState.title s) v
      (FormState.isLoading s) (FormState.urlError s) (FormState.successMessage s)).

Definition setIsLoading (v : bool) : Eff unit :=
  modifyForm (fun s =>
    FormState.mk (FormState.url s) (FormState.title s) (FormState.description s)
      v (FormState.urlError s) (FormState.successMessage s)).

Definition setUrlError (v : string) : Eff unit :=
  modifyForm (fun s =>
    FormState.mk (FormState.url s) (FormState.title s) (FormState.description s)
      (FormState.isLoading s) v (FormState.successMessage s)).

Definition setSuccessMessage (v : string) : Eff unit :=
  modifyForm (fun s =>
    FormState.mk (FormState.url s) (FormState.title s) (FormState.description s)
      (FormState.isLoading s) (FormState.urlError s) v).

Section Handlers.
Variable env : Env.
(** The [onAddBookmark] prop. *)
Variable onAddBookmark : string -> string -> string -> Eff unit.

(** BookmarkForm.tsx, 42-49. *)
Definition validateUrl (urlString : string) : bool :=
  URL_parses env urlString.

(** BookmarkForm.tsx, 51-108. The url, title and description are
    the state values of the render the handler belongs to. *)
Definition handleSubmit : Eff unit :=
  s <- readWorld form ;;
  let url := FormState.url s in
  let title := FormState.title s in
  let description := FormState.description s in
  setUrlError "" ;;
  setSuccessMessage "" ;;
  if negb (JS.truthy (JS.trim url)) then
    setUrlError "URL is required"
  else if negb (validateUrl url) then
    setUrlError "Please enter a valid URL (e.g., https://example.com)"
  else if negb (JS.truthy (JS.trim title)) then
    setUrlError "Title is required"
  else
    setIsLoading true ;;
    try_finally
      (try_catch
         (onAddBookmark url title description ;;
          setUrl "" ;;
          setTitle "" ;;
          setDescription "" ;;
          setSuccessMessage "✨ Bookmark added successfully!")
         (fun _ => setUrlError "Failed to save bookmark"))
      (setIsLoading false).

End Handlers.
End BookmarkForm.

(** ** src/components/BookmarkList.tsx *)
Module BookmarkList.

Definition setDeleting (v : option string) : Eff unit :=
  modifyList (fun s =>
    ListState.mk v (ListState.updating s) (ListState.editingId s)
      (ListState.editTitle s) (ListState.editUrl s)
      (ListState.editDescription s) (ListState.tweenedOut s)).

Definition setUpdating (v : option string) : Eff unit :=
  modifyList (fun s =>
    ListState.mk (ListState.deleting s) v (ListState.editingId s)
      (ListState.editTitle s) (ListState.editUrl s)
      (ListState.editDescription s) (ListState.tweenedOut s)).

(** [cancelEdit] (BookmarkList.tsx, 119-124). *)
Definition cancelEdit : Eff unit :=
  modifyList (fun s =>
    ListState.mk (ListState.deleting s) (ListState.updating s) None
      "" "" "" (ListState.tweenedOut s)).

(** [startEdit] (BookmarkList.tsx, 112-117). *)
Definition startEdit (bookmark : Bookmark) : Eff unit :=
  modifyList (fun s =>
    ListState.mk (ListState.deleting s) (ListState.updating s)
      (Some (id bookmark)) (title bookmark) (url bookmark)
      (match description bookmark with Some d => JS.or_else d "" | None => "" end)
      (ListState.tweenedOut s)).

(** The [bookmarks] prop: the page passes [filteredBookmarks]. *)
Definition props_bookmarks (w : World) : list Bookmark :=
  PageState.filteredBookmarks (page w).

(** [containerRef.current?.querySelector('[data-id="<id>"]')]: an
    element is found when an item with that id is rendered. *)
Definition querySelector (id0 : string) : Eff bool :=
  readWorld (fun w =>
    existsb (fun b => JS.strict_eq (id b) id0) (props_bookmarks w)).

(** [gsap.to(el, { opacity: 0, x: 100, ... })]. *)
Definition tweenOut (id0 : string) : Eff unit :=
  modifyList (fun s =>
    ListState.mk (ListState.deleting s) (ListState.updating s)
      (ListState.editingId s) (ListState.editTitle s) (ListState.editUrl s)
      (ListState.editDescription s) (id0 :: ListState.tweenedOut s)).

(** [gsap.to(el, { opacity: 1, x: 0, ... })]. *)
Definition tweenBack (id0 : string) : Eff unit :=
  modifyList (fun s =>
    ListState.mk (ListState.deleting s) (ListState.updating s)
      (ListState.editingId s) (ListState.editTitle s) (ListState.editUrl s)
      (ListState.editDescription s)
      (filter (fun x => negb (JS.strict_eq x id0)) (ListState.tweenedOut s))).

(** The items of the list that are in view: rendered and not moved
    out by a tween. *)
Definition displayed (w : World) : list Bookmark :=
  filter (fun b =>
            negb (existsb (JS.strict_eq (id b)) (ListState.tweenedOut (blist w))))
         (props_bookmarks w).

(** The layout effect keyed on [bookmarks.length] (BookmarkList.tsx,
    53-73), run when the length of the rendered list changes: when the
    list has items, the entrance tween is replayed on every item and the
    tweened properties are cleared at its end, so an item that a tween
    had moved out is in view again. *)
Definition entranceEffect : Eff unit :=
  rendered <- readWorld props_bookmarks ;;
  if 0 <? length rendered then
    modifyList (fun s =>
      ListState.mk (ListState.deleting s) (ListState.updating s)
        (ListState.editingId s) (ListState.editTitle s) (ListState.editUrl s)
        (ListState.editDescription s) [])
  else ret tt.

Section Handlers.
Variable env : Env.
(** The [onDeleteBookmark], [onUpdateBookmark] and
    [onToggleFavorite] props. *)
Variable onDeleteBookmark : string -> Eff unit.
Variable onUpdateBookmark :
  string -> string * string * option string -> Eff unit.
Variable onToggleFavorite : string -> bool -> Eff unit.

(** BookmarkList.tsx, 75-89: what [handleDelete] does before it
    awaits [onDeleteBookmark]; the result says whether the item's
    element was found. *)
Definition handleDelete_start (id0 : string) : Eff bool :=
  deleteRef <- querySelector id0 ;;
  (if deleteRef then tweenOut id0 else ret tt) ;;
  setDeleting (Some id0) ;;
  ret deleteRef.

(** BookmarkList.tsx, 75-104. *)
Definition handleDelete (id0 : string) : Eff unit :=
  deleteRef <- handleDelete_start id0 ;;
  try_catch
    (onDeleteBookmark id0)
    (fun _ =>
       setDeleting None ;;
       if deleteRef then tweenBack id0 else ret tt).

(** BookmarkList.tsx, 126-133. *)
Definition validateUrl (urlString : string) : bool :=
  URL_parses env urlString.

(** BookmarkList.tsx, 135-156. *)
Definition saveEdit (bookmarkId : string) : Eff unit :=
  s <- readWorld blist ;;
  let editTitle := ListState.editTitle s in
  let editUrl := ListState.editUrl s in
  let editDescription := ListState.editDescription s in
  if negb (JS.truthy (JS.trim editTitle)) || negb (JS.truthy (JS.trim editUrl))
  then ret tt
  else if negb (validateUrl (JS.trim editUrl)) then ret tt
  else
    setUpdating (Some bookmarkId) ;;
    try_finally
      (onUpdateBookmark bookmarkId
         (editTitle, editUrl, JS.or_null editDescription) ;;
       cancelEdit)
      (setUpdating None).

(** BookmarkList.tsx, 158-165. *)
Definition handleFavorite (bookmark : Bookmark) : Eff unit :=
  setUpdating (Some (id bookmark)) ;;
  try_finally
    (onToggleFavorite (id bookmark)
       (BookmarksPage.Boolean (is_favorite bookmark)))
    (setUpdating None).

End Handlers.
End BookmarkList.

(** ** The page as rendered: the components wired to the page's handlers
    (page.tsx, 393 and 472-477). *)
Module App.
Section Wiring.
Variable env : Env.

Definition submitForm : Eff unit :=
  BookmarkForm.handleSubmit env (BookmarksPage.handleAddBookmark env).

Definition clickDelete (id0 : string) : Eff unit :=
  BookmarkList.handleDelete (BookmarksPage.handleDeleteBookmark env) id0.

Definition clickDelete_start (id0 : string) : Eff bool :=
  BookmarkList.handleDelete_start id0.

Definition clickSave (bookmarkId : string) : Eff unit :=
  BookmarkList.saveEdit env (BookmarksPage.handleUpdateBookmark env) bookmarkId.

Definition clickFavorite (bookmark : Bookmark) : Eff unit :=
  BookmarkList.handleFavorite (BookmarksPage.handleToggleFavorite env) bookmark.
End Wiring.
End App.

(** ** The OAuth callback route handler (GET) *)
Module AuthCallback.

(** The request: its URL and the query pairs that
    [new URL(request.url).searchParams] holds, in order. *)
Record NextRequest : Type := mkRequest {
  request_url : string;
  searchParams : list (string * string)
}.

(** [searchParams.get(name)]: the first value given for [name]. *)
Fixpoint get (params : list (string * string)) (name : string)
    : option string :=
  match params with
  | [] => None
  | (k, v) :: rest => if String.eqb k name then Some v else get rest name
  end.

(** [NextResponse.redirect(new URL(target, base))], once the URL is
    built. *)
Inductive NextResponse : Type :=
| redirect (target base : string).

(** What [await supabase.auth.exchangeCodeForSession(code)] does: it
    resolves (to an object that may carry an error) or it throws. *)
Inductive Exchange : Type :=
| Resolves (error : option string)
| Throws (e : string).

Section Handler.
(** [createClient(url, key)] with the two environment values: it
    returns a client or it throws. *)
Variable createClient : Completion unit.
Variable exchangeCodeForSession : string -> Exchange.
(** [new URL(target, base)] does not throw. *)
Variable URL_resolves : string -> string -> bool.

(** [searchParams.get("next") || "/bookmarks"]. *)
Definition nextTarget (request : NextRequest) : string :=
  match get (searchParams request) "next" with
  | Some n => JS.or_else n "/bookmarks"
  | None => "/bookmarks"
  end.

(** [NextResponse.redirect(new URL(target, request.url))]: the
    constructor throws a TypeError on a target that does not parse. *)
Definition redirectTo (target : string) (request : NextRequest)
    : Completion NextResponse :=
  if URL_resolves target (request_url request)
  then Normal (redirect target (request_url request))
  else Throw "TypeError: Invalid URL".

(** [await supabase.auth.exchangeCodeForSession(code)]; the resolved
    value is not read. *)
Definition awaitExchange (code : string) : Completion unit :=
  match exchangeCodeForSession code with
  | Resolves _ => Normal tt
  | Throws e => Throw e
  end.

(** The handler: the response it returns, or what it throws. The
    request's URL is taken as parsed ([searchParams]). The client is
    created outside the [try]; the exchange and the redirect to [next]
    are inside it. *)
Definition GET (request : NextRequest) : Completion NextResponse :=
  let code := get (searchParams request) "code" in
  let next := nextTarget request in
  let missing := redirectTo "/auth?error=no_code" request in
  match code with
  | Some c =>
      if JS.truthy c then
        match createClient with
        | Throw e => Throw e
        | Normal _ =>
            let body :=
              match awaitExchange c with
              | Normal _ => redirectTo next request
              | Throw e => Throw e
              end in
            match body with
            | Normal response => Normal response
            | Throw _ => redirectTo "/auth?error=auth_failed" request
            end
        end
      else missing
  | None => missing
  end.

End Handler.
End AuthCallback.


(** ** Specification vocabulary *)

(** Every row of [l] belongs to [me]. *)
Definition owned (me : string) (l : list Bookmark) : Prop :=
  Forall (fun b => user_id b = me) l.

(** The store after a run of change events delivered to the listener. *)
Definition deliver (session : Session) (events : list Payload) (w : World)
    : World :=
  fold_left (fun w p => exec (BookmarksPage.onPostgresChanges session p) w)
            events w.

(** The request that [loadBookmarks] sends for [session]. *)
Definition loadRequest (session : Session) : Postgrest.Request :=
  Postgrest.select "bookmarks" "*"
    [Postgrest.eq "user_id" (uid (user session))] "created_at" false.

(** ** Concrete data for the examples *)
Module Example.

Definition me : User := mkUser "me".
Definition session : Session := mkSession me.

Definition b1 : Bookmark :=
  mkBookmark "b1" "https://example.com" "Example" None (Some false)
    "2024-01-01T09:00:00.000Z" "2024-01-01T09:00:00.000Z" "me".

Definition b2 : Bookmark :=
  mkBookmark "b2" "https://rocq-prover.org/docs" "Rocq Docs"
    (Some "Reference Manual") (Some true)
    "2024-03-05T12:30:00.000Z" "2024-03-06T08:00:00.000Z" "me".

(** A row of another user. *)
Definition foreign : Bookmark :=
  mkBookmark "b9" "https://elsewhere.example" "Not mine" None None
    "2024-02-01T00:00:00.000Z" "2024-02-01T00:00:00.000Z" "other".

(** [b1] as an edit would leave it. *)
Definition b1_edited : Bookmark :=
  mkBookmark "b1" "https://example.org" "Example (edited)" (Some "moved")
    (Some false) "2024-01-01T09:00:00.000Z" "2024-04-01T10:00:00.000Z" "me".

Definition db : list Bookmark := [b1; foreign; b2].

(** The first step of URL parsing without a base: the input starts
    with a scheme, a letter followed by letters, digits, [+], [-] or
    [.], and then a colon. It stands for [new URL] in the examples. *)
Definition isAlpha (c : ascii) : bool :=
  let n := nat_of_ascii c in
  ((65 <=? n) && (n <=? 90)) || ((97 <=? n) && (n <=? 122)).

Definition isSchemeChar (c : ascii) : bool :=
  let n := nat_of_ascii c in
  isAlpha c || ((48 <=? n) && (n <=? 57)) ||
  (n =? 43) || (n =? 45) || (n =? 46).

Fixpoint schemeRest (s : string) : bool :=
  match s with
  | EmptyString => false
  | String c s' =>
      if (nat_of_ascii c =? 58) then true
      else if isSchemeChar c then schemeRest s' else false
  end.

Definition hasScheme (s : string) : bool :=
  match s with
  | EmptyString => false
  | String c s' => isAlpha c && schemeRest s'
  end.

(** The letters A-Z to a-z, every other byte kept. *)
Definition lowerAsciiChar (c : ascii) : ascii :=
  let n := nat_of_ascii c in
  if (65 <=? n) && (n <=? 90) then ascii_of_nat (n + 32) else c.

Fixpoint lowerAscii (s : string) : string :=
  match s with
  | EmptyString => EmptyString
  | String c s' => String (lowerAsciiChar c) (lowerAscii s')
  end.

(** Stands for [String.prototype.toLowerCase] in the examples: it is
    that function on ASCII text and on the two Greek strings below. A
    capital sigma that ends a word is mapped to the final sigma, a
    capital sigma on its own to the plain one. *)
Definition toLowerCase (s : string) : string :=
  if String.eqb s "ΟΔΟΣ" then "οδος"
  else if String.eqb s "Σ" then "σ"
  else lowerAscii s.

Definition clock : string := "2024-04-01T10:00:00.000Z".

(** A backing store that refuses every request. *)
Definition refuse (_ : Postgrest.Request) : Postgrest.Awaited :=
  Postgrest.Fulfilled
    {| Postgrest.data := None;
       Postgrest.error := Some "new row violates row-level security policy" |}.

(** Signed in, healthy backing store. *)
Definition env : Env :=
  mkEnv (Some session) clock (Postgrest.serve db) hasScheme toLowerCase.

(** Signed in, every request refused. *)
Definition env_refused : Env :=
  mkEnv (Some session) clock refuse hasScheme toLowerCase.

(** The page after sign-in and Load, with the filter effect run. *)
Definition signedIn (e : Env) : World :=
  exec (BookmarksPage.setUser (Some me) ;;
        BookmarksPage.loadBookmarks e ;;
        BookmarksPage.filterEffect e) initialWorld.

(** The signed-in page after the user typed [q] in the search box
    and set the favorites toggle to [f]. *)
Definition searching (q : string) (f : bool) : World :=
  exec (BookmarksPage.setSearchQuery q ;;
        BookmarksPage.setShowFavoritesOnly f ;;
        BookmarksPage.filterEffect env) (signedIn env).

(** The form as filled in by the user. *)
Definition filled (url title description : string) (w : World) : World :=
  exec (BookmarkForm.setUrl url ;;
        BookmarkForm.setTitle title ;;
        BookmarkForm.setDescription description) w.

(** A change event nobody sent for this user. *)
Definition fabricated : Payload := mkPayload INSERT foreign foreign.

End Example.

(** ** Vocabulary of the display filter *)

(** [needle] occurs in [hay] as a contiguous run. *)
Definition occursIn (needle hay : string) : Prop :=
  exists pre post, hay = (pre ++ needle ++ post)%string.

(** A substring match without regard to case, read on the text itself:
    a contiguous run of [s] equals [q] once both are put in lower
    case. *)
Definition matchesIgnoringCase (env : Env) (q s : string) : Prop :=
  exists pre mid post,
    s = (pre ++ mid ++ post)%string /\
    toLowerCase env mid = toLowerCase env q.

(** The text of an optional description, a null one being empty. *)
Definition descriptionText (d : option string) : string :=
  match d with Some s => s | None => "" end.

(** The lower-case form of an optional description, a null one being
    empty. *)
Definition lowerCaseOf (env : Env) (d : option string) : string :=
  match d with Some s => toLowerCase env s | None => "" end.

(** A bookmark is part of the display list, with the match read on the
    text itself. *)
Definition shownAsClaimed (env : Env) (q : string) (favoritesOnly : bool)
    (b : Bookmark) : Prop :=
  (matchesIgnoringCase env q (title b) \/
   matchesIgnoringCase env q (url b) \/
   matchesIgnoringCase env q (descriptionText (description b))) /\
  (favoritesOnly = true -> is_favorite b = Some true).

(** A bookmark is part of the display list, with the match read on the
    lower-case forms: the query in lower case occurs in the title, the
    url or the description in lower case. *)
Definition shown (env : Env) (q : string) (favoritesOnly : bool)
    (b : Bookmark) : Prop :=
  (occursIn (toLowerCase env q) (toLowerCase env (title b)) \/
   occursIn (toLowerCase env q) (toLowerCase env (url b)) \/
   occursIn (toLowerCase env q) (lowerCaseOf env (description b))) /\
  (favoritesOnly = true -> is_favorite b = Some true).

(** A street name whose capital sigma is final. *)
Definition odos : Bookmark :=
  mkBookmark "b7" "https://example.com/odos" "ΟΔΟΣ" None None
    "2024-05-01T00:00:00.000Z" "2024-05-01T00:00:00.000Z" "me".

(** The page with [odos] in the Store and the query set to a capital
    sigma. *)
Definition searchingSigma : World :=
  exec (BookmarksPage.setBookmarks (fun _ => [odos]) ;;
        BookmarksPage.setSearchQuery "Σ") initialWorld.

(** ** Vocabulary of the mutation gateway *)

(** The three checks of [handleSubmit] on the submitted url and title. *)
Definition urlMissing (url : string) : Prop := JS.trim url = "".
Definition urlInvalid (env : Env) (url : string) : Prop :=
  URL_parses env url = false.
Definition titleMissing (title : string) : Prop := JS.trim title = "".

(** The validation messages of the form. *)
Definition validationMessages : list string :=
  [ "URL is required";
    "Please enter a valid URL (e.g., https://example.com)";
    "Title is required" ].

(** A description as the gateway writes it: null instead of empty. *)
Definition nullIfEmpty (s : string) : option string :=
  match s with EmptyString => None | _ => Some s end.

(** The insert request for a submitted url, title and description. *)
Definition insertRequest (session : Session) (url title description : string)
    : Postgrest.Request :=
  Postgrest.insert "bookmarks"
    [ {| Postgrest.ins_url := url;
         Postgrest.ins_title := title;
         Postgrest.ins_description := nullIfEmpty description;
         Postgrest.ins_user_id := uid (user session) |} ].

(** The filters every write of the gateway carries: the row's id and
    the signed-in user's id. *)
Definition ownRow (u : User) (id0 : string) : list Postgrest.Filter :=
  [Postgrest.eq "id" id0; Postgrest.eq "user_id" (uid u)].

(** The requests of Update, Delete and ToggleFavorite. *)
Definition updateRequest (env : Env) (u : User) (id0 : string)
    (updates : string * string * option string) : Postgrest.Request :=
  let '(title0, url0, description0) := updates in
  Postgrest.update "bookmarks"
    (Postgrest.BookmarkFields (JS.trim title0) (JS.trim url0)
       (BookmarksPage.descriptionTrimmed description0) (toISOString_now env))
    (ownRow u id0).

Definition deleteRequest (u : User) (id0 : string) : Postgrest.Request :=
  Postgrest.delete "bookmarks" (ownRow u id0).

Definition toggleRequest (env : Env) (u : User) (id0 : string)
    (isFavorite : bool) : Postgrest.Request :=
  Postgrest.update "bookmarks"
    (Postgrest.FavoriteFields (negb isFavorite) (toISOString_now env))
    (ownRow u id0).

(** The banner of a failed favorite toggle. *)
Definition favoriteBanner : string :=
  "Failed to update favorite. Make sure your bookmarks table has an is_favorite column.".

(** What one gateway call leaves behind: the request [r] is sent, the
    handler returns normally, only the page state may differ, and there
    the Store is untouched; the banner is [msg] when the request failed
    and the page is as before when it did not. *)
Definition gatewayRun (env : Env) (h : Eff unit) (r : Postgrest.Request)
    (msg : string) (w : World) : Prop :=
  exists pg,
    h w = (Normal tt, mkWorld pg (form w) (blist w) (sent w ++ [r])) /\
    PageState.bookmarks pg = PageState.bookmarks (page w) /\
    (Postgrest.failed (backend env r) = true ->
       PageState.error pg = Some msg) /\
    (Postgrest.failed (backend env r) = false -> pg = page w).

(** ** Requests to the OAuth callback, for the examples *)
Module CallbackExample.
Import AuthCallback.

Definition callback_url : string :=
  "https://bookmarks.example/auth/callback".

Definition with_code : NextRequest :=
  mkRequest callback_url [("code", "4/0AbCdEf"); ("next", "/bookmarks?tab=fav")].

Definition without_code : NextRequest :=
  mkRequest callback_url [("error", "access_denied")].

Definition empty_code : NextRequest :=
  mkRequest callback_url [("code", "")].

(** A provider that rejects every code by throwing. *)
Definition rejecting (_ : string) : Exchange := Throws "invalid grant".

(** A provider that accepts every code. *)
Definition accepting (_ : string) : Exchange := Resolves None.

(** The client is created. *)
Definition client : Completion unit := Normal tt.

(** Stands for [new URL(target, base)] in the examples: the targets
    used there resolve against the callback URL, but for the one whose
    port is out of range. *)
Definition resolves (target base : string) : bool :=
  negb (String.eqb target "//a:99999").

Definition unparseable_next : NextRequest :=
  mkRequest callback_url [("code", "4/0AbCdEf"); ("next", "//a:99999")].
End CallbackExample.

(** ** White space outside ASCII, for the examples *)

(** U+00A0 NO-BREAK SPACE, in UTF-8. *)
Definition nbsp : string :=
  String (ascii_of_nat 194) (String (ascii_of_nat 160) "").

(** U+3000 IDEOGRAPHIC SPACE, in UTF-8. *)
Definition ideographicSpace : string :=
  String (ascii_of_nat 227)
    (String (ascii_of_nat 128) (String (ascii_of_nat 128) "")).

(** ** Vocabulary of trimming *)

(** [t] is [s] without the white space at its two ends: [s] is [t]
    between two runs of white space, [t] does not start with white
    space, and no part of [t] up to its end is white space only. *)
Definition strippedOf (s t : string) : Prop :=
  exists lead trail,
    s = (lead ++ t ++ trail)%string /\
    JS.allWhiteSpace lead = true /\
    JS.allWhiteSpace trail = true /\
    JS.whiteSpaceAt t = 0 /\
    (forall a b, t = (a ++ b)%string -> b <> "" ->
       JS.allWhiteSpace b = false).

(** The white-space code point that [s] starts with, split off: [s]
    starts with none, or it is [w ++ r] where [w] is the encoding of one
    white-space code point. *)
Inductive LeadingWhiteSpace (s : string) : Prop :=
| NoLeadingWhiteSpace : JS.whiteSpaceAt s = 0 -> LeadingWhiteSpace s
| OneLeadingWhiteSpace : forall w r,
    s = (w ++ r)%string -> w <> "" ->
    (forall r', JS.whiteSpaceAt (w ++ r')%string = String.length w) ->
    String.length w <= 3 ->
    LeadingWhiteSpace s.

(** * Further vocabulary *)

(** [l1] is [l2] with some entries left out, the others in order. *)
Inductive subseq {A : Type} : list A -> list A -> Prop :=
| subseq_nil : subseq [] []
| subseq_skip : forall x l1 l2, subseq l1 l2 -> subseq l1 (x :: l2)
| subseq_keep : forall x l1 l2, subseq l1 l2 -> subseq (x :: l1) (x :: l2).

(** The ids of a list of rows, in order. *)
Definition ids (l : list Bookmark) : list string := map id l.

(** [n] deliveries of the same change event. *)
Fixpoint redeliver (me : string) (p : Payload) (n : nat)
    (l : list Bookmark) : list Bookmark :=
  match n with
  | O => l
  | S n' => Store.onChange me p (redeliver me p n' l)
  end.

(** ** The list panel of the page (page.tsx, 445-478)

    What the page renders below the search bar: one of two empty-state
    messages, or the list component with the display list. *)
Inductive Panel : Type :=
| NoBookmarksYet
| NoResultsFor (searchQuery : string)
| ListOf (bookmarks : list Bookmark).

Definition listPanel (s : PageState.t) : Panel :=
  if length (PageState.filteredBookmarks s) =? 0 then
    if length (PageState.bookmarks s) =? 0 then NoBookmarksYet
    else NoResultsFor (PageState.searchQuery s)
  else ListOf (PageState.filteredBookmarks s).

(** ** Vocabulary for what a handler leaves alone *)

(** [m] never changes the Store's list. *)
Definition keepsStore {A : Type} (m : Eff A) : Prop :=
  forall w,
    PageState.bookmarks (page (snd (m w))) = PageState.bookmarks (page w).

(** [m] returns normally and touches the page state and the requests
    only: the form and the list component are left as they were. *)
Definition pageOnly (m : Eff unit) : Prop :=
  forall w, exists pg s,
    m w = (Normal tt, mkWorld pg (form w) (blist w) s).

(** The form after a submission went through. *)
Definition formAfterSuccess : FormState.t :=
  FormState.mk "" "" "" false "" "✨ Bookmark added successfully!".

(** ** Vocabulary of the list component *)

(** The edit fields pass the checks of [saveEdit]. *)
Definition editAccepted (env : Env) (s : ListState.t) : Prop :=
  JS.trim (ListState.editTitle s) <> "" /\
  JS.trim (ListState.editUrl s) <> "" /\
  URL_parses env (JS.trim (ListState.editUrl s)) = true.

(** The list component out of edit mode and idle, its delete marks and
    tweens kept. *)
Definition editClosed (s : ListState.t) : ListState.t :=
  ListState.mk (ListState.deleting s) None None "" "" ""
    (ListState.tweenedOut s).

(** The list component with a row [b] opened for editing. *)
Definition editing (b : Bookmark) (w : World) : World :=
  exec (BookmarkList.startEdit b) w.

(** ** More of BookmarkList.tsx: the domain shown under a title *)
Module Domain.

(** [s.slice(n)]: [s] without its first [n] code units. *)
Fixpoint slice (n : nat) (s : string) : string :=
  match n, s with
  | O, _ => s
  | S _, EmptyString => EmptyString
  | S n', String _ s' => slice n' s'
  end.

(** [s.replace(pattern, replacement)] for a string pattern and a
    replacement without [$]: the first occurrence of the pattern is
    replaced, the rest of [s] is kept. *)
Fixpoint replace (s pattern replacement : string) : string :=
  if String.prefix pattern s then
    (replacement ++ slice (String.length pattern) s)%string
  else
    match s with
    | EmptyString => EmptyString
    | String c s' => String c (replace s' pattern replacement)
    end.

Section GetDomain.
(** [new URL(urlString).hostname], or nothing when the constructor
    throws. *)
Variable hostname : string -> option string.

(** BookmarkList.tsx, 175-182. *)
Definition getDomain (urlString : string) : string :=
  match hostname urlString with
  | Some h => replace h "www." ""
  | None => urlString
  end.

End GetDomain.
End Domain.

(** No occurrence of [pattern] in [pre ++ pattern ++ post] starts inside
    [pre]: the occurrence after [pre] is the first one. *)
Definition firstOccurrenceAfter (pre pattern post : string) : Prop :=
  forall a b,
    pre = (a ++ b)%string -> b <> "" ->
    String.prefix pattern (b ++ pattern ++ post)%string = false.

(** For the examples: the host of an [https://] URL up to the first
    slash. *)
Fixpoint untilSlash (s : string) : string :=
  match s with
  | EmptyString => EmptyString
  | String c s' =>
      if (nat_of_ascii c =? 47) then EmptyString else String c (untilSlash s')
  end.

Definition httpsHost (s : string) : option string :=
  if String.prefix "https://" s then Some (untilSlash (Domain.slice 8 s))
  else None.

(** ** The session gate: the home page, the sign-in page and the mount
    effect of the bookmarks page *)

(** src/app/page.tsx, 11-21: the route [checkAuth] pushes. *)
Module Home.
Definition checkAuth (session : option Session) : string :=
  match session with
  | Some _ => "/bookmarks"
  | None => "/auth"
  end.
End Home.

(** The sign-in page (AuthPageClient). *)
Module AuthPage.

Record State : Type := mk {
  isLoading : bool;
  isSigningIn : bool;
  runtimeAuthError : option string
}.

Definition initial : State := mk true false None.

(** [checkAuth] of the page: the route it pushes, if any, and the state
    it leaves. *)
Definition checkAuth (session : option Session) (s : State)
    : option string * State :=
  (match session with
   | Some _ => Some "/bookmarks"
   | None => None
   end,
   mk false (isSigningIn s) (runtimeAuthError s)).

(** [queryAuthError], from [searchParams.get("error")]. *)
Definition queryAuthError (searchParamError : option string) : option string :=
  match searchParamError with
  | Some e =>
      if JS.strict_eq e "auth_failed" then
        Some "Google sign-in failed. Please try again."
      else if JS.strict_eq e "no_code" then
        Some "Sign-in was cancelled. Please continue with Google."
      else None
  | None => None
  end.

(** [runtimeAuthError ?? queryAuthError]. *)
Definition authError (s : State) (searchParamError : option string)
    : option string :=
  match runtimeAuthError s with
  | Some e => Some e
  | None => queryAuthError searchParamError
  end.

(** [{authError && (...)}]: the banner is rendered for a non-empty
    message. *)
Definition bannerShown (s : State) (searchParamError : option string) : bool :=
  match authError s searchParamError with
  | Some m => JS.truthy m
  | None => false
  end.

(** What [await supabase.auth.signInWithOAuth(...)] does: it resolves to
    an object with an error (its message) or without, or it throws. *)
Inductive SignIn : Type :=
| Answers (error_message : option string)
| Fails.

(** [handleGoogleSignIn]. *)
Definition handleGoogleSignIn (signInWithOAuth : SignIn) (s : State) : State :=
  let started := mk (isLoading s) true None in
  match signInWithOAuth with
  | Answers (Some message) => mk (isLoading s) false (Some message)
  | Answers None => started
  | Fails => mk (isLoading s) false (Some "Unable to start Google sign-in.")
  end.

End AuthPage.

(** The mount effect of the bookmarks page and the listener it sets up. *)
Module Mount.

(** The channel that [setupRealtimeListener] stores in
    [subscriptionRef.current]. *)
Record Channel : Type := mkChannel {
  topic : string;
  event : string;
  schema : string;
  table : string;
  filter : string;
  callback : Payload -> Eff unit
}.

(** What the effect leaves outside the component state: the route it
    pushed and the channel it subscribed. *)
Record Outcome : Type := mkOutcome {
  pushed : option string;
  subscriptionRef : option Channel
}.

Section Effect.
Variable env : Env.

(** page.tsx, 130-181. *)
Definition setupRealtimeListener : option Channel :=
  match getSession env with
  | None => None
  | Some session =>
      Some (mkChannel
              ("bookmarks:" ++ uid (user session))%string
              "*" "public" "bookmarks"
              ("user_id=eq." ++ uid (user session))%string
              (BookmarksPage.onPostgresChanges session))
  end.

(** page.tsx, 64-84. *)
Definition checkAuthAndLoadBookmarks : Eff Outcome :=
  try_finally
    (try_catch
       (match getSession env with
        | None => ret (mkOutcome (Some "/auth") None)
        | Some session =>
            BookmarksPage.setUser (Some (user session)) ;;
            BookmarksPage.loadBookmarks env ;;
            ret (mkOutcome None setupRealtimeListener)
        end)
       (fun _ =>
          BookmarksPage.setError (Some "Failed to load bookmarks") ;;
          ret (mkOutcome None None)))
    (BookmarksPage.setIsLoading false).

End Effect.
End Mount.

(** The three pages behind the gate, and where a visit ends. *)
Inductive Route : Type := home | auth | bookmarks_page.

Definition routeOf (path : string) : option Route :=
  if String.eqb path "/" then Some home
  else if String.eqb path "/auth" then Some auth
  else if String.eqb path "/bookmarks" then Some bookmarks_page
  else None.

(** The route a page pushes when it is entered, if any. *)
Definition pushOnEnter (env : Env) (w : World) (r : Route) : option string :=
  match r with
  | home => Some (Home.checkAuth (getSession env))
  | auth => fst (AuthPage.checkAuth (getSession env) AuthPage.initial)
  | bookmarks_page =>
      match completion (Mount.checkAuthAndLoadBookmarks env) w with
      | Normal o => Mount.pushed o
      | Throw _ => None
      end
  end.

(** The page a visit is on after the entered page's push, if any. *)
Definition afterEnter (env : Env) (w : World) (r : Route) : Route :=
  match pushOnEnter env w r with
  | Some path => match routeOf path with Some r' => r' | None => r end
  | None => r
  end.
(** * Properties *)

(** ** Ownership *)

Lemma strict_eq_true : forall a b, JS.strict_eq a b = true <-> a = b.
Proof. intros a b. unfold JS.strict_eq. apply String.eqb_eq. Qed.

Lemma strict_eq_false : forall a b, JS.strict_eq a b = false <-> a <> b.
Proof. intros a b. unfold JS.strict_eq. apply String.eqb_neq. Qed.

Lemma place_Forall :
  forall (P : Bookmark -> Prop) c asc b l,
    P b -> Forall P l -> Forall P (Postgrest.place c asc b l).
Proof.
  intros P c asc b l Hb Hl. induction Hl as [| x l Hx Hl IH]; simpl.
  - constructor; [assumption | constructor].
  - destruct (if asc then _ else _).
    + constructor; [assumption |]. constructor; assumption.
    + constructor; assumption.
Qed.

Lemma order_Forall :
  forall (P : Bookmark -> Prop) c asc l,
    Forall P l -> Forall P (Postgrest.order c asc l).
Proof.
  intros P c asc l Hl. unfold Postgrest.order.
  induction Hl as [| x l Hx Hl IH]; simpl.
  - constructor.
  - apply place_Forall; assumption.
Qed.

(** A read with the filter [user_id = me] answers with rows of [me] only. *)
Lemma serve_select_owned :
  forall db me t cols c asc r,
    Postgrest.serve db
      (Postgrest.select t cols [Postgrest.eq "user_id" me] c asc)
      = Postgrest.Fulfilled r ->
    exists d, Postgrest.data r = Some d /\ Postgrest.error r = None /\ owned me d.
Proof.
  intros db me t cols c asc r H. simpl in H. injection H as <-.
  eexists. split; [reflexivity |]. split; [reflexivity |].
  apply order_Forall. apply Forall_forall. intros b Hb.
  apply filter_In in Hb. destruct Hb as [_ Hb]. simpl in Hb.
  rewrite andb_true_r in Hb. apply String.eqb_eq in Hb. exact Hb.
Qed.

Lemma onChange_owned :
  forall me p l, owned me l -> owned me (Store.onChange me p l).
Proof.
  intros me p l Hl. unfold Store.onChange.
  destruct (eventType p).
  - unfold Store.ApplyInsert.
    destruct (JS.strict_eq (user_id (new p)) me) eqn:E; simpl; [| assumption].
    constructor; [apply strict_eq_true; assumption | assumption].
  - unfold Store.ApplyUpdate.
    destruct (JS.strict_eq (user_id (new p)) me) eqn:E; simpl; [| assumption].
    apply strict_eq_true in E. unfold owned in *.
    rewrite Forall_forall in *. intros b Hb.
    apply in_map_iff in Hb. destruct Hb as [x [Hx Hin]].
    destruct (JS.strict_eq (id x) (id (new p))); subst b; auto.
  - unfold Store.ApplyDelete.
    destruct (JS.strict_eq (user_id (old p)) me) eqn:E; simpl; [| assumption].
    unfold owned in *. rewrite Forall_forall in *. intros b Hb.
    apply filter_In in Hb. destruct Hb as [Hb _]. auto.
Qed.

Lemma onChange_foreign :
  forall me p l,
    user_id (Store.guardedRow p) <> me -> Store.onChange me p l = l.
Proof.
  intros me p l H. unfold Store.onChange, Store.guardedRow in *.
  destruct (eventType p);
    unfold Store.ApplyInsert, Store.ApplyUpdate, Store.ApplyDelete;
    apply strict_eq_false in H; rewrite H; reflexivity.
Qed.


Lemma onPostgresChanges_bookmarks :
  forall session p w,
    PageState.bookmarks (page (exec (BookmarksPage.onPostgresChanges session p) w))
    = Store.onChange (uid (user session)) p (PageState.bookmarks (page w)).
Proof. intros. reflexivity. Qed.

Lemma deliver_owned :
  forall session events w,
    owned (uid (user session)) (PageState.bookmarks (page w)) ->
    owned (uid (user session))
          (PageState.bookmarks (page (deliver session events w))).
Proof.
  intros session events. unfold deliver.
  induction events as [| p events IH]; intros w Hw; simpl.
  - assumption.
  - apply IH. rewrite onPostgresChanges_bookmarks.
    apply onChange_owned. assumption.
Qed.


Lemma loadBookmarks_run :
  forall env session w,
    getSession env = Some session ->
    let loaded := exec (BookmarksPage.loadBookmarks env) w in
    sent loaded = sent w ++ [loadRequest session] /\
    (PageState.bookmarks (page loaded) = PageState.bookmarks (page w) \/
     exists r,
       backend env (loadRequest session) = Postgrest.Fulfilled r /\
       Postgrest.error r = None /\
       PageState.bookmarks (page loaded)
       = match Postgrest.data r with Some d => d | None => [] end).
Proof.
  intros env session w Hs loaded. subst loaded.
  unfold exec, BookmarksPage.loadBookmarks, try_catch. rewrite Hs.
  unfold bind, BookmarksPage.await.
  change (Postgrest.select "bookmarks" "*"
            [Postgrest.eq "user_id" (uid (user session))] "created_at" false)
    with (loadRequest session).
  destruct (backend env (loadRequest session)) as [r | reason] eqn:E.
  - unfold BookmarksPage.throwIf.
    destruct (Postgrest.error r) as [e |] eqn:Ee; simpl.
    + split; [reflexivity | left; reflexivity].
    + split; [reflexivity |]. right. exists r. auto.
  - simpl. split; [reflexivity | left; reflexivity].
Qed.

(** C1. Ownership invariant of the Bookmark Store. With a session signed
    in, Load sends one read, filtered on the session's user id; if the
    backing store answers that read with rows of that user only, then
    after Load and any run of change events every bookmark of the Store
    has the session's user id, so a row of another user is never in the
    Store; and an event (insert, update or delete) whose row has another
    user id leaves the Store as it was. *)
Theorem store_ownership_invariant :
  forall (env : Env) (session : Session) (events : list Payload) (w : World),
    let me := uid (user session) in
    getSession env = Some session ->
    owned me (PageState.bookmarks (page w)) ->
    (forall r d,
        backend env (loadRequest session) = Postgrest.Fulfilled r ->
        Postgrest.data r = Some d -> owned me d) ->
    let loaded := exec (BookmarksPage.loadBookmarks env) w in
    let final := deliver session events loaded in
    sent loaded = sent w ++ [loadRequest session] /\
    owned me (PageState.bookmarks (page final)) /\
    (forall b, user_id b <> me -> ~ In b (PageState.bookmarks (page final))) /\
    (forall (w' : World) (p : Payload),
        user_id (Store.guardedRow p) <> me ->
        PageState.bookmarks
          (page (exec (BookmarksPage.onPostgresChanges session p) w'))
        = PageState.bookmarks (page w')).
Proof.
  intros env session events w me Hs Hw Hb loaded final.
  destruct (loadBookmarks_run env session w Hs) as [Hsent Hstore].
  fold loaded in Hsent, Hstore.
  assert (Hown : owned me (PageState.bookmarks (page loaded))).
  { destruct Hstore as [Hsame | [r [Hr [_ Hdata]]]].
    - rewrite Hsame. exact Hw.
    - rewrite Hdata. destruct (Postgrest.data r) as [d |] eqn:Ed.
      + exact (Hb r d Hr Ed).
      + constructor. }
  assert (Hfinal : owned me (PageState.bookmarks (page final))).
  { subst final me. apply deliver_owned. exact Hown. }
  split; [exact Hsent |]. split; [exact Hfinal |]. split.
  - intros b Hne Hin. unfold owned in Hfinal.
    rewrite Forall_forall in Hfinal. apply Hne. apply Hfinal. exact Hin.
  - intros w' p Hne. rewrite onPostgresChanges_bookmarks.
    apply onChange_foreign. exact Hne.
Qed.

Lemma store_ownership_invariant_witness :
  let loaded := exec (BookmarksPage.loadBookmarks Example.env) initialWorld in
  let final := deliver Example.session [Example.fabricated] loaded in
  getSession Example.env = Some Example.session /\
  owned "me" (PageState.bookmarks (page initialWorld)) /\
  (forall r d,
      backend Example.env (loadRequest Example.session) = Postgrest.Fulfilled r ->
      Postgrest.data r = Some d -> owned "me" d) /\
  sent loaded = [loadRequest Example.session] /\
  owned "me" (PageState.bookmarks (page final)) /\
  ~ In Example.foreign (PageState.bookmarks (page final)).
Proof.
  intros loaded final.
  assert (H0 : owned "me" (PageState.bookmarks (page initialWorld)))
    by constructor.
  assert (H1 : forall r d,
             backend Example.env (loadRequest Example.session)
             = Postgrest.Fulfilled r ->
             Postgrest.data r = Some d -> owned "me" d).
  { intros r d Hr Hd.
    destruct (serve_select_owned Example.db "me" "bookmarks" "*"
                "created_at" false r Hr) as [d' [Hd' [_ Hown]]].
    rewrite Hd in Hd'. injection Hd' as <-. exact Hown. }
  split; [reflexivity |]. split; [exact H0 |]. split; [exact H1 |].
  destruct (store_ownership_invariant Example.env Example.session
              [Example.fabricated] initialWorld eq_refl H0 H1)
    as [Hsent [Hown [Hnot _]]].
  split; [exact Hsent |]. split; [exact Hown |].
  apply Hnot. simpl. discriminate.
Defined.

(** ** Change events *)

(** C3. ApplyInsert: for every Store list and every insert event, if the
    record's user id is the current user's, the new list is the record
    followed by the previous list; otherwise the list is unchanged. *)
Theorem ApplyInsert_prepends_own_rows :
  forall (me : string) (p : Payload) (prev : list Bookmark),
    eventType p = INSERT ->
    (user_id (new p) = me ->
       Store.onChange me p prev = new p :: prev) /\
    (user_id (new p) <> me ->
       Store.onChange me p prev = prev).
Proof.
  intros me p prev Hev. unfold Store.onChange. rewrite Hev.
  unfold Store.ApplyInsert. split; intro H.
  - apply strict_eq_true in H. rewrite H. reflexivity.
  - apply strict_eq_false in H. rewrite H. reflexivity.
Qed.

Lemma ApplyInsert_prepends_own_rows_witness :
  eventType (mkPayload INSERT Example.b2 Example.b2) = INSERT /\
  user_id Example.b2 = "me" /\
  Store.onChange "me" (mkPayload INSERT Example.b2 Example.b2) [Example.b1]
  = [Example.b2; Example.b1] /\
  user_id Example.foreign <> "me" /\
  Store.onChange "me" Example.fabricated [Example.b1] = [Example.b1].
Proof.
  split; [reflexivity |]. split; [reflexivity |]. split.
  - apply (ApplyInsert_prepends_own_rows "me"
             (mkPayload INSERT Example.b2 Example.b2) [Example.b1] eq_refl).
    reflexivity.
  - split; [simpl; discriminate |].
    apply (ApplyInsert_prepends_own_rows "me" Example.fabricated
             [Example.b1] eq_refl).
    simpl. discriminate.
Defined.

(** C4. ApplyUpdate: for every Store list and every update event that
    passes the ownership guard, the new list has the length of the old
    one; at every position it holds the incoming record where the old
    entry had the record's id and the old entry itself otherwise (so the
    order is kept); and it is the old list when no entry has that id. *)
Theorem ApplyUpdate_replaces_matching_entries :
  forall (me : string) (p : Payload) (prev : list Bookmark),
    eventType p = UPDATE ->
    user_id (new p) = me ->
    let next := Store.onChange me p prev in
    length next = length prev /\
    (forall i b, nth_error prev i = Some b ->
       (id b = id (new p) -> nth_error next i = Some (new p)) /\
       (id b <> id (new p) -> nth_error next i = Some b)) /\
    ((forall b, In b prev -> id b <> id (new p)) -> next = prev).
Proof.
  intros me p prev Hev Hme next. subst next.
  unfold Store.onChange. rewrite Hev. unfold Store.ApplyUpdate.
  apply strict_eq_true in Hme. rewrite Hme. simpl.
  split; [apply length_map |]. split.
  - intros i b Hi. rewrite nth_error_map, Hi. simpl. split; intro H.
    + apply strict_eq_true in H. rewrite H. reflexivity.
    + apply strict_eq_false in H. rewrite H. reflexivity.
  - intro Hnone. induction prev as [| x l IH]; simpl; [reflexivity |].
    assert (Hx : JS.strict_eq (id x) (id (new p)) = false).
    { apply strict_eq_false. apply Hnone. left. reflexivity. }
    rewrite Hx. f_equal. apply IH. intros b Hb. apply Hnone. right. exact Hb.
Qed.

Lemma ApplyUpdate_replaces_matching_entries_witness :
  let p := mkPayload UPDATE Example.b1_edited Example.b1 in
  let prev := [Example.b2; Example.b1] in
  eventType p = UPDATE /\
  user_id (new p) = "me" /\
  length (Store.onChange "me" p prev) = length prev /\
  nth_error (Store.onChange "me" p prev) 0 = Some Example.b2 /\
  nth_error (Store.onChange "me" p prev) 1 = Some Example.b1_edited.
Proof.
  intros p prev.
  split; [reflexivity |]. split; [reflexivity |].
  destruct (ApplyUpdate_replaces_matching_entries "me" p prev
              eq_refl eq_refl) as [Hlen [Hnth _]].
  split; [exact Hlen |]. split.
  - apply (Hnth 0 Example.b2 eq_refl). simpl. discriminate.
  - apply (Hnth 1 Example.b1 eq_refl). reflexivity.
Defined.

(** ** Strings *)

Lemma prefix_iff :
  forall q s, String.prefix q s = true <-> exists post, s = (q ++ post)%string.
Proof.
  induction q as [| c q IH]; intros s.
  - split; [intros _; exists s; reflexivity |].
    intros _. destruct s; reflexivity.
  - destruct s as [| d s]; simpl.
    + split; [discriminate | intros [post H]; discriminate].
    + destruct (Ascii.ascii_dec c d) as [-> | Hne].
      * rewrite IH. split; intros [post H]; exists post.
        -- rewrite H. reflexivity.
        -- injection H as H. exact H.
      * split; [discriminate |].
        intros [post H]. injection H as H1 H2. congruence.
Qed.

Lemma includes_iff :
  forall s q,
    JS.includes s q = true <->
    exists pre post, s = (pre ++ q ++ post)%string.
Proof.
  induction s as [| c s IH]; intros q.
  - cbn [JS.includes]. rewrite orb_false_r, prefix_iff. split.
    + intros [post H]. exists "", post. exact H.
    + intros [pre [post H]]. destruct pre; [| discriminate].
      exists post. exact H.
  - cbn [JS.includes]. rewrite orb_true_iff, prefix_iff, IH. split.
    + intros [[post H] | [pre [post H]]].
      * exists "", post. exact H.
      * exists (String c pre), post. simpl. rewrite H. reflexivity.
    + intros [pre [post H]]. destruct pre as [| d pre].
      * left. exists post. exact H.
      * right. simpl in H. injection H as _ H. exists pre, post. exact H.
Qed.

Lemma descriptionLower_lowerCaseOf :
  forall env d,
    BookmarksPage.descriptionLower env d = lowerCaseOf env d.
Proof.
  intros env [s |]; simpl; [| reflexivity].
  unfold JS.or_else. destruct (toLowerCase env s); reflexivity.
Qed.

Lemma Boolean_true : forall f, BookmarksPage.Boolean f = true <-> f = Some true.
Proof.
  intros [[|] |]; simpl; split; intro H; try reflexivity; discriminate.
Qed.

Lemma keep_iff_shown :
  forall env q fav b,
    BookmarksPage.keep env q fav b = true <-> shown env q fav b.
Proof.
  intros env q fav b. unfold BookmarksPage.keep, shown, occursIn.
  rewrite andb_true_iff, !orb_true_iff, descriptionLower_lowerCaseOf,
    !includes_iff, Boolean_true, negb_true_iff.
  split; intros [H1 H2].
  - split; [tauto |]. intro Hf. destruct H1 as [H1 | H1]; [congruence | exact H1].
  - split; [| tauto]. destruct fav; [right; auto | left; reflexivity].
Qed.

(** ** Trimming *)

Lemma trimStart_unfold :
  forall s,
    JS.trimStart s
    = match s with
      | EmptyString => EmptyString
      | String _ r1 =>
          match JS.whiteSpaceAt s, r1 with
          | 1, _ => JS.trimStart r1
          | 2, String _ r2 => JS.trimStart r2
          | 3, String _ (String _ r3) => JS.trimStart r3
          | _, _ => s
          end
      end.
Proof. destruct s; reflexivity. Qed.

Lemma allWhiteSpace_unfold :
  forall s,
    JS.allWhiteSpace s
    = match s with
      | EmptyString => true
      | String _ r1 =>
          match JS.whiteSpaceAt s, r1 with
          | 1, _ => JS.allWhiteSpace r1
          | 2, String _ r2 => JS.allWhiteSpace r2
          | 3, String _ (String _ r3) => JS.allWhiteSpace r3
          | _, _ => false
          end
      end.
Proof. destruct s; reflexivity. Qed.

Lemma start_cases : forall s, LeadingWhiteSpace s.
Proof.
  intros s. destruct (JS.whiteSpaceAt s) as [| k] eqn:E; [apply NoLeadingWhiteSpace; exact E |].
  unfold JS.whiteSpaceAt in E.
  destruct s as [| a r1]; [discriminate |].
  destruct (N.ltb (N_of_ascii a) 128) eqn:Ea.
  - destruct (JS.isWhiteSpace (N_of_ascii a)) eqn:Ew; [| discriminate].
    apply (OneLeadingWhiteSpace _ (String a "") r1); [reflexivity | discriminate | | simpl; lia].
    intro r'. simpl. rewrite Ea, Ew. reflexivity.
  - destruct r1 as [| b r2]; [discriminate |].
    destruct ((194 <=? N_of_ascii a)%N && (N_of_ascii a <? 224)%N) eqn:E2.
    + destruct (JS.continuation (N_of_ascii b) && JS.isWhiteSpace _) eqn:Ew;
        [| discriminate].
      apply (OneLeadingWhiteSpace _ (String a (String b "")) r2);
        [reflexivity | discriminate | | simpl; lia].
      intro r'. simpl. rewrite Ea, E2, Ew. reflexivity.
    + destruct r2 as [| c r3]; [discriminate |].
      match type of E with (if ?c then _ else _) = _ => destruct c eqn:Ew end;
        [| discriminate].
      apply (OneLeadingWhiteSpace _ (String a (String b (String c ""))) r3);
        [reflexivity | discriminate | | simpl; lia].
      intro r'. simpl. rewrite Ea, E2, Ew. reflexivity.
Qed.

Lemma skip_whiteSpace :
  forall w r,
    w <> "" -> String.length w <= 3 ->
    JS.whiteSpaceAt (w ++ r)%string = String.length w ->
    JS.trimStart (w ++ r)%string = JS.trimStart r /\
    JS.allWhiteSpace (w ++ r)%string = JS.allWhiteSpace r.
Proof.
  intros w r Hne Hlen H.
  rewrite trimStart_unfold, allWhiteSpace_unfold.
  destruct w as [| a [| b [| c [| d w]]]];
    [congruence | | | | simpl in Hlen; lia];
    cbn [append] in *; rewrite H; simpl; split; reflexivity.
Qed.

Lemma string_length_app :
  forall a b, String.length (a ++ b)%string = String.length a + String.length b.
Proof. induction a as [| c a IH]; intro b; simpl; [reflexivity | rewrite IH; reflexivity]. Qed.

Lemma string_app_assoc :
  forall a b c, ((a ++ b) ++ c)%string = (a ++ b ++ c)%string.
Proof. induction a as [| x a IH]; intros b c; simpl; [reflexivity | rewrite IH; reflexivity]. Qed.

Lemma string_app_empty_r : forall a, (a ++ "")%string = a.
Proof. induction a as [| x a IH]; simpl; [reflexivity | rewrite IH; reflexivity]. Qed.

Lemma trimStart_none :
  forall s, JS.whiteSpaceAt s = 0 -> JS.trimStart s = s.
Proof.
  intros s H. rewrite trimStart_unfold. destruct s; [reflexivity |].
  rewrite H. reflexivity.
Qed.

Lemma allWhiteSpace_none :
  forall s, JS.whiteSpaceAt s = 0 -> s <> "" -> JS.allWhiteSpace s = false.
Proof.
  intros s H Hne. rewrite allWhiteSpace_unfold. destruct s; [congruence |].
  rewrite H. reflexivity.
Qed.

Lemma trimStart_spec_fuel :
  forall n s, String.length s <= n ->
    exists lead,
      s = (lead ++ JS.trimStart s)%string /\
      JS.allWhiteSpace lead = true /\
      JS.whiteSpaceAt (JS.trimStart s) = 0.
Proof.
  induction n as [| n IH]; intros s Hn.
  - destruct s; [| simpl in Hn; lia]. exists "". auto.
  - destruct (start_cases s) as [H0 | w r Hs Hne Hw Hlen].
    + exists "". rewrite (trimStart_none s H0). auto.
    + subst s.
      destruct (skip_whiteSpace w r Hne Hlen (Hw r)) as [Ht _].
      destruct (IH r) as [lead [H1 [H2 H3]]].
      { rewrite string_length_app in Hn.
        destruct w; [congruence | simpl in Hn; lia]. }
      exists (w ++ lead)%string. rewrite Ht.
      split; [rewrite string_app_assoc, <- H1; reflexivity |].
      split; [| exact H3].
      destruct (skip_whiteSpace w lead Hne Hlen (Hw lead)) as [_ Ha].
      rewrite Ha. exact H2.
Qed.

Lemma trimStart_spec :
  forall s, exists lead,
    s = (lead ++ JS.trimStart s)%string /\
    JS.allWhiteSpace lead = true /\
    JS.whiteSpaceAt (JS.trimStart s) = 0.
Proof. intro s. apply (trimStart_spec_fuel (String.length s)). lia. Qed.

Lemma allWhiteSpace_app_fuel :
  forall n x y, String.length x <= n ->
    JS.allWhiteSpace x = true ->
    JS.allWhiteSpace (x ++ y)%string = JS.allWhiteSpace y.
Proof.
  induction n as [| n IH]; intros x y Hn Hx.
  - destruct x; [reflexivity | simpl in Hn; lia].
  - destruct x as [| c x0] eqn:Ex; [reflexivity |]. rewrite <- Ex in *.
    destruct (start_cases x) as [H0 | w r Hs Hne Hw Hlen].
    + rewrite (allWhiteSpace_none x H0) in Hx; [discriminate | congruence].
    + subst x. rewrite Hs in *.
      destruct (skip_whiteSpace w r Hne Hlen (Hw r)) as [_ Ha].
      rewrite Ha in Hx. rewrite string_app_assoc.
      destruct (skip_whiteSpace w (r ++ y) Hne Hlen (Hw _)) as [_ Ha'].
      rewrite Ha'. apply IH; [| exact Hx].
      rewrite string_length_app in Hn.
      destruct w; [congruence | simpl in Hn; lia].
Qed.

Lemma allWhiteSpace_app :
  forall x y, JS.allWhiteSpace x = true ->
    JS.allWhiteSpace (x ++ y)%string = JS.allWhiteSpace y.
Proof. intros x y. apply (allWhiteSpace_app_fuel (String.length x)). lia. Qed.

Lemma whiteSpaceAt_prefix :
  forall x y, JS.whiteSpaceAt (x ++ y)%string = 0 -> JS.whiteSpaceAt x = 0.
Proof.
  intros x y H. destruct (start_cases x) as [H0 | w r Hs Hne Hw Hlen];
    [exact H0 |].
  subst x. rewrite string_app_assoc, Hw in H. destruct w; [congruence | discriminate].
Qed.

Lemma trimEnd_spec :
  forall s, exists trail,
    s = (JS.trimEnd s ++ trail)%string /\
    JS.allWhiteSpace trail = true /\
    (forall a b, JS.trimEnd s = (a ++ b)%string -> b <> "" ->
       JS.allWhiteSpace b = false).
Proof.
  induction s as [| c s IH].
  - exists "". split; [reflexivity |]. split; [reflexivity |].
    intros a b H Hb. destruct a; destruct b; try discriminate H.
      exfalso. apply Hb. reflexivity.
  - cbn [JS.trimEnd]. destruct (JS.allWhiteSpace (String c s)) eqn:E.
    + exists (String c s). split; [reflexivity |]. split; [exact E |].
      intros a b H Hb. destruct a; destruct b; try discriminate H.
      exfalso. apply Hb. reflexivity.
    + destruct IH as [trail [H1 [H2 H3]]].
      exists trail. split; [simpl; rewrite <- H1; reflexivity |].
      split; [exact H2 |].
      intros a b H Hb. destruct a as [| x a].
      * simpl in H. subst b.
        destruct (JS.allWhiteSpace (String c (JS.trimEnd s))) eqn:E'; [| reflexivity].
        rewrite <- (allWhiteSpace_app _ trail E') in H2.
        cbn [append] in H2. rewrite <- H1 in H2. congruence.
      * simpl in H. injection H as _ H. apply (H3 a b H Hb).
Qed.

(** [trim] gives the string without the white space at its two ends. *)
Lemma trim_strips :
  forall s, strippedOf s (JS.trim s).
Proof.
  intros s. unfold strippedOf, JS.trim.
  destruct (trimStart_spec s) as [lead [H1 [H2 H3]]].
  destruct (trimEnd_spec (JS.trimStart s)) as [trail [H4 [H5 H6]]].
  exists lead, trail.
  split; [rewrite <- H4; exact H1 |]. split; [exact H2 |].
  split; [exact H5 |]. split; [| exact H6].
  rewrite H4 in H3. apply (whiteSpaceAt_prefix _ _ H3).
Qed.

(** ** The display filter *)

(** C5, as stated, fails on the code. The Store holds a bookmark
    titled with a Greek word that ends in a capital sigma and the query
    is a capital sigma: the query occurs in the title as it stands, so
    it matches it as a substring without regard to case, but the
    bookmark is not in the display list, because the title in lower
    case ends in a final sigma and the query in lower case is a plain
    one. *)
Lemma Filter_final_sigma_counterexample :
  let w := searchingSigma in
  let q := PageState.searchQuery (page w) in
  let fav := PageState.showFavoritesOnly (page w) in
  let w' := exec (BookmarksPage.filterEffect Example.env) w in
  In odos (PageState.bookmarks (page w)) /\
  shownAsClaimed Example.env q fav odos /\
  ~ In odos (PageState.filteredBookmarks (page w')).
Proof.
  cbv zeta. split; [left; reflexivity |]. split.
  - split.
    + left. exists "ΟΔΟ", "Σ", "". split; reflexivity.
    + intro H. discriminate H.
  - vm_compute. intros [].
Qed.

(** C5, amended. For every Store list, query and favorites flag, the
    filter effect stores as display list the Store's bookmarks, in
    order, for which the query in lower case occurs in the title, the
    url or the description in lower case (a null description read as
    empty) and, when the flag is set, the favorite flag is true; lower
    case is what [toLowerCase] gives for each whole string. The Store is
    not modified, and two evaluations on states with the same Store,
    query and flag give the same display list. *)
Theorem Filter_selects_shown_bookmarks :
  forall (env : Env) (w : World),
    let q := PageState.searchQuery (page w) in
    let fav := PageState.showFavoritesOnly (page w) in
    let w' := exec (BookmarksPage.filterEffect env) w in
    PageState.filteredBookmarks (page w')
      = filter (BookmarksPage.keep env q fav) (PageState.bookmarks (page w)) /\
    (forall b, BookmarksPage.keep env q fav b = true <-> shown env q fav b) /\
    (forall b, In b (PageState.filteredBookmarks (page w')) <->
               In b (PageState.bookmarks (page w)) /\ shown env q fav b) /\
    PageState.bookmarks (page w') = PageState.bookmarks (page w) /\
    (forall w2 : World,
        PageState.bookmarks (page w2) = PageState.bookmarks (page w) ->
        PageState.searchQuery (page w2) = q ->
        PageState.showFavoritesOnly (page w2) = fav ->
        PageState.filteredBookmarks
          (page (exec (BookmarksPage.filterEffect env) w2))
        = PageState.filteredBookmarks (page w')).
Proof.
  intros env w q fav w'. subst w' q fav.
  split; [reflexivity |]. split; [intro b; apply keep_iff_shown |].
  split; [| split].
  - intro b. change (PageState.filteredBookmarks
                       (page (exec (BookmarksPage.filterEffect env) w)))
      with (filter (BookmarksPage.keep env (PageState.searchQuery (page w))
                      (PageState.showFavoritesOnly (page w)))
                   (PageState.bookmarks (page w))).
    rewrite filter_In, keep_iff_shown. reflexivity.
  - reflexivity.
  - intros w2 Hb Hq Hf.
    change (BookmarksPage.Filter env (PageState.searchQuery (page w2))
              (PageState.showFavoritesOnly (page w2))
              (PageState.bookmarks (page w2))
            = BookmarksPage.Filter env (PageState.searchQuery (page w))
              (PageState.showFavoritesOnly (page w))
              (PageState.bookmarks (page w))).
    rewrite Hb, Hq, Hf. reflexivity.
Qed.

Lemma Filter_selects_shown_bookmarks_witness :
  let env := Example.env in
  let w := Example.searching "ROCQ" false in
  let w2 := exec (BookmarksPage.setError (Some "dismiss me")) w in
  PageState.bookmarks (page w2) = PageState.bookmarks (page w) /\
  PageState.searchQuery (page w2) = PageState.searchQuery (page w) /\
  PageState.showFavoritesOnly (page w2) = PageState.showFavoritesOnly (page w) /\
  PageState.filteredBookmarks (page (exec (BookmarksPage.filterEffect env) w2))
  = PageState.filteredBookmarks (page (exec (BookmarksPage.filterEffect env) w)) /\
  PageState.filteredBookmarks (page (exec (BookmarksPage.filterEffect env) w))
  = [Example.b2].
Proof.
  intros env w w2.
  split; [reflexivity |]. split; [reflexivity |]. split; [reflexivity |].
  destruct (Filter_selects_shown_bookmarks env w)
    as [Hfilter [_ [_ [_ Hpure]]]].
  split.
  - apply (Hpure w2); reflexivity.
  - rewrite Hfilter. reflexivity.
Defined.

(** ** Create *)

Lemma not_truthy_iff : forall s, negb (JS.truthy s) = true <-> s = "".
Proof. intros [| c s]; simpl; split; intro H; try reflexivity; discriminate. Qed.

Lemma or_null_nullIfEmpty : forall s, JS.or_null s = nullIfEmpty s.
Proof. intros [| c s]; reflexivity. Qed.

(** C6. For every submitted create request: if the url is empty after
    trimming, or is not a valid URL, or the title is empty after
    trimming, the form shows one of its validation messages, no request
    is sent to the backing store and the Bookmark Store is unchanged;
    and a request is sent only when all three checks pass. *)
Theorem Create_validates_before_insert :
  forall (env : Env) (w : World),
    let url := FormState.url (form w) in
    let title := FormState.title (form w) in
    let w' := exec (App.submitForm env) w in
    (urlMissing url \/ urlInvalid env url \/ titleMissing title ->
       In (FormState.urlError (form w')) validationMessages /\
       sent w' = sent w /\
       PageState.bookmarks (page w') = PageState.bookmarks (page w)) /\
    (sent w' <> sent w ->
       ~ urlMissing url /\ ~ urlInvalid env url /\ ~ titleMissing title).
Proof.
  intros env w url title w'. subst w' url title.
  unfold urlMissing, urlInvalid, titleMissing, validationMessages.
  unfold App.submitForm, BookmarkForm.handleSubmit, BookmarkForm.validateUrl.
  unfold exec, bind, readWorld, BookmarkForm.setUrlError,
    BookmarkForm.setSuccessMessage, modifyForm.
  cbn [fst snd form page sent blist
    FormState.url FormState.title FormState.description FormState.isLoading
    FormState.urlError FormState.successMessage].
  destruct (negb (JS.truthy (JS.trim (FormState.url (form w))))) eqn:E1.
  { apply not_truthy_iff in E1. simpl. split.
    - intros _. split; [left; reflexivity |]. split; reflexivity.
    - intro H. exfalso. apply H. reflexivity. }
  destruct (negb (URL_parses env (FormState.url (form w)))) eqn:E2.
  { simpl. split.
    - intros _. split; [right; left; reflexivity |]. split; reflexivity.
    - intro H. exfalso. apply H. reflexivity. }
  destruct (negb (JS.truthy (JS.trim (FormState.title (form w))))) eqn:E3.
  { simpl. split.
    - intros _. split; [right; right; left; reflexivity |]. split; reflexivity.
    - intro H. exfalso. apply H. reflexivity. }
  assert (N1 : JS.trim (FormState.url (form w)) <> "").
  { intro H. apply not_truthy_iff in H. congruence. }
  assert (N2 : URL_parses env (FormState.url (form w)) <> false).
  { intro H. rewrite H in E2. discriminate. }
  assert (N3 : JS.trim (FormState.title (form w)) <> "").
  { intro H. apply not_truthy_iff in H. congruence. }
  split.
  - intros [H | [H | H]]; contradiction.
  - intros _. auto.
Qed.

Lemma Create_validates_before_insert_witness :
  let w := Example.filled "not-a-url" "My Link" "" (Example.signedIn Example.env) in
  let w' := exec (App.submitForm Example.env) w in
  urlInvalid Example.env (FormState.url (form w)) /\
  In (FormState.urlError (form w')) validationMessages /\
  sent w' = sent w /\
  PageState.bookmarks (page w') = PageState.bookmarks (page w).
Proof.
  intros w w'. split; [reflexivity |].
  apply (proj1 (Create_validates_before_insert Example.env w)).
  right. left. reflexivity.
Defined.

Ltac gateway_cases env r :=
  unfold BookmarksPage.await, BookmarksPage.throwIf,
    BookmarksPage.setError, modifyPage, throw, ret;
  destruct (backend env r) as [[? [? |]] | ?]; simpl;
  eexists; (split; [reflexivity |]); simpl;
  (split; [reflexivity |]); split; intro H;
  try reflexivity; try discriminate.

Lemma handleAddBookmark_run :
  forall env session url title description w,
    getSession env = Some session ->
    gatewayRun env (BookmarksPage.handleAddBookmark env url title description)
      (insertRequest session url title description)
      "Failed to add bookmark" w.
Proof.
  intros env session url title description w Hs.
  unfold gatewayRun, BookmarksPage.handleAddBookmark, insertRequest.
  rewrite Hs, or_null_nullIfEmpty. unfold try_catch, bind.
  set (r := Postgrest.insert _ _).
  gateway_cases env r.
Qed.

Lemma handleDeleteBookmark_run :
  forall env u id0 w,
    PageState.user (page w) = Some u ->
    gatewayRun env (BookmarksPage.handleDeleteBookmark env id0)
      (deleteRequest u id0) "Failed to delete bookmark" w.
Proof.
  intros env u id0 w Hu.
  unfold gatewayRun, BookmarksPage.handleDeleteBookmark, deleteRequest, ownRow.
  unfold try_catch, bind, readWorld. rewrite Hu.
  set (r := Postgrest.delete _ _).
  gateway_cases env r.
Qed.

Lemma handleUpdateBookmark_run :
  forall env u id0 updates w,
    PageState.user (page w) = Some u ->
    gatewayRun env (BookmarksPage.handleUpdateBookmark env id0 updates)
      (updateRequest env u id0 updates) "Failed to update bookmark" w.
Proof.
  intros env u id0 [[t l] d] w Hu.
  unfold gatewayRun, BookmarksPage.handleUpdateBookmark, updateRequest, ownRow.
  unfold try_catch, bind, readWorld. rewrite Hu.
  set (r := Postgrest.update _ _ _).
  gateway_cases env r.
Qed.

Lemma handleToggleFavorite_run :
  forall env u id0 f w,
    PageState.user (page w) = Some u ->
    gatewayRun env (BookmarksPage.handleToggleFavorite env id0 f)
      (toggleRequest env u id0 f) favoriteBanner w.
Proof.
  intros env u id0 f w Hu.
  unfold gatewayRun, BookmarksPage.handleToggleFavorite, toggleRequest, ownRow,
    favoriteBanner.
  unfold try_catch, bind, readWorld. rewrite Hu.
  set (r := Postgrest.update _ _ _).
  gateway_cases env r.
Qed.

(** C10. The insert request of Create carries the session's user id, a
    null description in place of an empty one, and the url and title
    exactly as submitted (not trimmed): so for the request the page's
    handler sends for any url, title and description, and so for the
    request sent when a valid form is submitted. *)
Theorem Create_sends_fields_as_submitted :
  forall (env : Env) (session : Session) (w : World),
    getSession env = Some session ->
    (forall url title description,
        sent (exec (BookmarksPage.handleAddBookmark env url title description) w)
        = sent w ++
          [Postgrest.insert "bookmarks"
             [ {| Postgrest.ins_url := url;
                  Postgrest.ins_title := title;
                  Postgrest.ins_description := nullIfEmpty description;
                  Postgrest.ins_user_id := uid (user session) |} ]]) /\
    (let url := FormState.url (form w) in
     let title := FormState.title (form w) in
     let description := FormState.description (form w) in
     ~ urlMissing url -> ~ urlInvalid env url -> ~ titleMissing title ->
     sent (exec (App.submitForm env) w)
     = sent w ++
       [Postgrest.insert "bookmarks"
          [ {| Postgrest.ins_url := url;
               Postgrest.ins_title := title;
               Postgrest.ins_description := nullIfEmpty description;
               Postgrest.ins_user_id := uid (user session) |} ]]).
Proof.
  intros env session w Hs. split.
  - intros url title description.
    destruct (handleAddBookmark_run env session url title description w Hs)
      as [pg [Hrun _]].
    unfold exec. rewrite Hrun. reflexivity.
  - intros url title description H1 H2 H3. subst url title description.
    unfold urlMissing, urlInvalid, titleMissing in *.
    unfold App.submitForm, BookmarkForm.handleSubmit, BookmarkForm.validateUrl.
    unfold exec, bind, readWorld, BookmarkForm.setUrlError,
      BookmarkForm.setSuccessMessage, modifyForm.
    cbn [fst snd form page sent blist
      FormState.url FormState.title FormState.description FormState.isLoading
      FormState.urlError FormState.successMessage].
    destruct (negb (JS.truthy (JS.trim (FormState.url (form w))))) eqn:E1.
    { apply not_truthy_iff in E1. contradiction. }
    destruct (negb (URL_parses env (FormState.url (form w)))) eqn:E2.
    { apply negb_true_iff in E2. contradiction. }
    destruct (negb (JS.truthy (JS.trim (FormState.title (form w))))) eqn:E3.
    { apply not_truthy_iff in E3. contradiction. }
    unfold BookmarkForm.setIsLoading, modifyForm, try_finally, try_catch.
    cbn [fst snd form page sent blist].
    match goal with
    | |- context [BookmarksPage.handleAddBookmark env ?a ?b ?c ?w1] =>
        destruct (handleAddBookmark_run env session a b c w1 Hs)
          as [pg [Hrun _]];
        rewrite Hrun
    end.
    reflexivity.
Qed.

Lemma Create_sends_fields_as_submitted_witness :
  let w := Example.filled "https://example.com  " " Example " ""
             (Example.signedIn Example.env) in
  getSession Example.env = Some Example.session /\
  ~ urlMissing (FormState.url (form w)) /\
  ~ urlInvalid Example.env (FormState.url (form w)) /\
  ~ titleMissing (FormState.title (form w)) /\
  sent (exec (App.submitForm Example.env) w)
  = sent w ++
    [Postgrest.insert "bookmarks"
       [ {| Postgrest.ins_url := "https://example.com  ";
            Postgrest.ins_title := " Example ";
            Postgrest.ins_description := None;
            Postgrest.ins_user_id := "me" |} ]].
Proof.
  intros w.
  assert (H1 : ~ urlMissing (FormState.url (form w))) by (vm_compute; discriminate).
  assert (H2 : ~ urlInvalid Example.env (FormState.url (form w)))
    by (vm_compute; discriminate).
  assert (H3 : ~ titleMissing (FormState.title (form w)))
    by (vm_compute; discriminate).
  split; [reflexivity |]. split; [exact H1 |]. split; [exact H2 |].
  split; [exact H3 |].
  exact (proj2 (Create_sends_fields_as_submitted Example.env Example.session w
                  eq_refl) H1 H2 H3).
Defined.

(** ** Update *)

(** C7. For every Update made with a user signed in, the handler sends
    one update whose values are the title and the url trimmed, the
    description trimmed and null when that leaves nothing (or when it
    was null), and the current time as last-modified stamp; its filters
    hold of exactly the rows with the given id and the user's id. A
    trimmed text is the text without the white space at its two ends,
    white space being that of the language (no-break and other Unicode
    spaces and the line terminators included). *)
Theorem Update_trims_and_scopes_to_owner :
  forall (env : Env) (u : User) (w : World)
         (id0 title0 url0 : string) (description0 : option string),
    PageState.user (page w) = Some u ->
    let filters := [Postgrest.eq "id" id0; Postgrest.eq "user_id" (uid u)] in
    sent (exec (BookmarksPage.handleUpdateBookmark env id0
                  (title0, url0, description0)) w)
    = sent w ++
      [Postgrest.update "bookmarks"
         (Postgrest.BookmarkFields
            (JS.trim title0) (JS.trim url0)
            (match description0 with
             | Some d => nullIfEmpty (JS.trim d)
             | None => None
             end)
            (toISOString_now env))
         filters] /\
    (forall row : Bookmark,
        forallb (fun f => Postgrest.satisfies f row) filters = true <->
        id row = id0 /\ user_id row = uid u) /\
    strippedOf title0 (JS.trim title0) /\
    strippedOf url0 (JS.trim url0) /\
    (forall d, description0 = Some d -> strippedOf d (JS.trim d)).
Proof.
  intros env u w id0 title0 url0 description0 Hu filters. subst filters.
  split; [| split; [| split; [| split]]].
  - destruct (handleUpdateBookmark_run env u id0 (title0, url0, description0) w Hu)
      as [pg [Hrun _]].
    unfold exec. rewrite Hrun. simpl. unfold BookmarksPage.descriptionTrimmed.
    destruct description0 as [d |]; [rewrite or_null_nullIfEmpty |]; reflexivity.
  - intro row. simpl. rewrite andb_true_r, andb_true_iff, !String.eqb_eq.
    reflexivity.
  - apply trim_strips.
  - apply trim_strips.
  - intros d _. apply trim_strips.
Qed.

Lemma Update_trims_and_scopes_to_owner_witness :
  let w := Example.signedIn Example.env in
  let filters := [Postgrest.eq "id" "b1"; Postgrest.eq "user_id" "me"] in
  let title0 := (nbsp ++ " Example (edited) ")%string in
  let url0 := (ideographicSpace ++ "https://example.org ")%string in
  PageState.user (page w) = Some Example.me /\
  sent (exec (BookmarksPage.handleUpdateBookmark Example.env "b1"
                (title0, url0, Some nbsp)) w)
  = sent w ++
    [Postgrest.update "bookmarks"
       (Postgrest.BookmarkFields "Example (edited)" "https://example.org"
          None Example.clock)
       filters] /\
  (forall row : Bookmark,
      forallb (fun f => Postgrest.satisfies f row) filters = true <->
      id row = "b1" /\ user_id row = "me").
Proof.
  intros w filters title0 url0. split; [reflexivity |].
  destruct (Update_trims_and_scopes_to_owner Example.env Example.me w "b1"
              title0 url0 (Some nbsp) eq_refl) as [Hsent [Hrows _]].
  split; [exact Hsent | exact Hrows].
Defined.

(** ** Failures at the backing store *)

Lemma gatewayRun_failed :
  forall env h r msg w,
    gatewayRun env h r msg w ->
    Postgrest.failed (backend env r) = true ->
    PageState.error (page (exec h w)) = Some msg /\
    PageState.bookmarks (page (exec h w)) = PageState.bookmarks (page w).
Proof.
  intros env h r msg w [pg [Hrun [Hstore [Hfail _]]]] Hf.
  unfold exec. rewrite Hrun. simpl. split; [apply Hfail; exact Hf | exact Hstore].
Qed.

(** C8. For each operation of the Mutation Gateway (create, update,
    delete, favorite toggle) made with the user signed in: when its
    request fails at the backing store, the page's error banner is set
    to the message of that operation ("Failed to add bookmark", "Failed
    to update bookmark", "Failed to delete bookmark", the favorite
    message) and the Bookmark Store's list is exactly what it was before
    the operation. *)
Theorem Gateway_failure_sets_banner_keeps_store :
  forall (env : Env) (session : Session) (u : User) (w : World),
    getSession env = Some session ->
    PageState.user (page w) = Some u ->
    let failing r := Postgrest.failed (backend env r) = true in
    let banner w' := PageState.error (page w') in
    let store w' := PageState.bookmarks (page w') in
    (forall url title description,
        failing (insertRequest session url title description) ->
        let w' :=
          exec (BookmarksPage.handleAddBookmark env url title description) w in
        banner w' = Some "Failed to add bookmark" /\ store w' = store w) /\
    (forall id0 updates,
        failing (updateRequest env u id0 updates) ->
        let w' := exec (BookmarksPage.handleUpdateBookmark env id0 updates) w in
        banner w' = Some "Failed to update bookmark" /\ store w' = store w) /\
    (forall id0,
        failing (deleteRequest u id0) ->
        let w' := exec (BookmarksPage.handleDeleteBookmark env id0) w in
        banner w' = Some "Failed to delete bookmark" /\ store w' = store w) /\
    (forall id0 isFavorite,
        failing (toggleRequest env u id0 isFavorite) ->
        let w' :=
          exec (BookmarksPage.handleToggleFavorite env id0 isFavorite) w in
        banner w' = Some favoriteBanner /\ store w' = store w).
Proof.
  intros env session u w Hs Hu failing banner store.
  subst failing banner store. cbv beta.
  split; [| split; [| split]].
  - intros url title description Hf w'. subst w'.
    eapply gatewayRun_failed; [apply handleAddBookmark_run; exact Hs | exact Hf].
  - intros id0 updates Hf w'. subst w'.
    eapply gatewayRun_failed; [apply handleUpdateBookmark_run; exact Hu | exact Hf].
  - intros id0 Hf w'. subst w'.
    eapply gatewayRun_failed; [apply handleDeleteBookmark_run; exact Hu | exact Hf].
  - intros id0 f Hf w'. subst w'.
    eapply gatewayRun_failed; [apply handleToggleFavorite_run; exact Hu | exact Hf].
Qed.

Lemma Gateway_failure_sets_banner_keeps_store_witness :
  let env := Example.env_refused in
  let w := Example.signedIn Example.env in
  let w' := exec (BookmarksPage.handleToggleFavorite env "b1" false) w in
  getSession env = Some Example.session /\
  PageState.user (page w) = Some Example.me /\
  Postgrest.failed (backend env (toggleRequest env Example.me "b1" false)) = true /\
  PageState.error (page w') = Some favoriteBanner /\
  PageState.bookmarks (page w') = PageState.bookmarks (page w).
Proof.
  intros env w w'.
  split; [reflexivity |]. split; [reflexivity |]. split; [reflexivity |].
  destruct (Gateway_failure_sets_banner_keeps_store env Example.session
              Example.me w eq_refl eq_refl)
    as [_ [_ [_ Htoggle]]].
  exact (Htoggle "b1" false eq_refl).
Defined.

(** ** Delete *)

(** [handleDeleteBookmark] catches what it throws: it always returns. *)
Lemma handleDeleteBookmark_never_throws :
  forall env id0 w,
    completion (BookmarksPage.handleDeleteBookmark env id0) w = Normal tt.
Proof.
  intros env id0 w.
  unfold completion, BookmarksPage.handleDeleteBookmark,
    try_catch, bind, readWorld.
  destruct (PageState.user (page w)) as [u |]; [| reflexivity].
  unfold BookmarksPage.await, BookmarksPage.throwIf.
  destruct (backend env _) as [[d [e |]] | reason]; reflexivity.
Qed.

(** So the [catch] of [handleDelete] never runs when the list is wired
    to the page: whatever the backing store answers, the list component
    is left as it was when the request was sent. *)
Lemma clickDelete_never_rolls_back :
  forall env id0 w,
    blist (exec (App.clickDelete env id0) w)
    = blist (exec (App.clickDelete_start id0) w).
Proof.
  intros env id0 w.
  unfold App.clickDelete, App.clickDelete_start, BookmarkList.handleDelete.
  unfold exec, bind at 1.
  destruct (BookmarkList.handleDelete_start id0 w) as [[deleteRef | e] w1] eqn:E1;
    [| reflexivity].
  unfold try_catch.
  pose proof (handleDeleteBookmark_never_throws env id0 w1) as Hn.
  unfold completion in Hn.
  destruct (BookmarksPage.handleDeleteBookmark env id0 w1) as [c w2] eqn:E2.
  simpl in Hn. subst c. simpl.
  unfold BookmarksPage.handleDeleteBookmark, try_catch, bind, readWorld in E2.
  destruct (PageState.user (page w1)) as [u |].
  - unfold BookmarksPage.await, BookmarksPage.throwIf in E2.
    destruct (backend env _) as [[d [e |]] | reason];
      simpl in E2; injection E2 as <-; reflexivity.
  - simpl in E2. injection E2 as <-. reflexivity.
Qed.

(** C2, on the code. Signed in with the list [b2; b1] displayed, the
    user deletes [b1] and the backing store refuses the delete. When the
    request is sent [b1] is out of the displayed list and still in the
    Store. After the failure the banner is set, and [b1] is still out of
    the displayed list with its delete button still marked as deleting:
    it is not restored. *)
Theorem Delete_failure_leaves_item_removed :
  let w := Example.signedIn Example.env in
  let sending := exec (App.clickDelete_start "b1") w in
  let w' := exec (App.clickDelete Example.env_refused "b1") w in
  BookmarkList.displayed w = [Example.b2; Example.b1] /\
  BookmarkList.displayed sending = [Example.b2] /\
  PageState.bookmarks (page sending) = [Example.b2; Example.b1] /\
  sent w' = sent w ++
    [Postgrest.delete "bookmarks"
       [Postgrest.eq "id" "b1"; Postgrest.eq "user_id" "me"]] /\
  PageState.error (page w') = Some "Failed to delete bookmark" /\
  BookmarkList.displayed w' = [Example.b2] /\
  ListState.deleting (blist w') = Some "b1" /\
  PageState.bookmarks (page w') = [Example.b2; Example.b1].
Proof.
  cbv zeta. repeat split; vm_compute; reflexivity.
Qed.

(** ** OAuth callback *)

(** C9, as stated, fails on the code. The request carries a code and a
    [next] target that is not a valid URL reference (its port is out of
    range); the client is created and the exchange succeeds. The handler
    does not redirect to the next target nor to the bookmarks view: the
    construction of the redirect URL throws inside the [try], and the
    [catch] redirects to the auth error state with reason
    auth_failed. *)
Lemma GET_unparseable_next_counterexample :
  let request := CallbackExample.unparseable_next in
  let base := AuthCallback.request_url request in
  let response :=
    AuthCallback.GET CallbackExample.client CallbackExample.accepting
      CallbackExample.resolves request in
  AuthCallback.get (AuthCallback.searchParams request) "code"
  = Some "4/0AbCdEf" /\
  CallbackExample.accepting "4/0AbCdEf" = AuthCallback.Resolves None /\
  response <> Normal (AuthCallback.redirect "/bookmarks" base) /\
  response <> Normal (AuthCallback.redirect "//a:99999" base) /\
  response = Normal (AuthCallback.redirect "/auth?error=auth_failed" base).
Proof.
  cbv zeta. split; [reflexivity |]. split; [reflexivity |].
  split; [vm_compute; discriminate |]. split; [vm_compute; discriminate |].
  reflexivity.
Qed.

(** C9, amended. The GET handler of the OAuth callback, for every
    request against whose URL the two error targets resolve: with no
    code parameter in the URL, or an empty one, it redirects to the auth
    error state with reason no_code. With a non-empty code and the
    client created: if the exchange throws it redirects to the auth
    error state with reason auth_failed; if the exchange resolves it
    redirects to the next target when that resolves against the request
    URL, and to the auth error state with reason auth_failed when it
    does not. If the client cannot be created the handler throws. The
    next target is the [next] parameter, and the bookmarks view when the
    parameter is missing or empty. *)
Theorem GET_redirects_by_outcome :
  forall (createClient : Completion unit)
         (exchangeCodeForSession : string -> AuthCallback.Exchange)
         (URL_resolves : string -> string -> bool)
         (request : AuthCallback.NextRequest),
    let code := AuthCallback.get (AuthCallback.searchParams request) "code" in
    let nextParam :=
      AuthCallback.get (AuthCallback.searchParams request) "next" in
    let next := AuthCallback.nextTarget request in
    let base := AuthCallback.request_url request in
    let response :=
      AuthCallback.GET createClient exchangeCodeForSession URL_resolves
        request in
    URL_resolves "/auth?error=no_code" base = true ->
    URL_resolves "/auth?error=auth_failed" base = true ->
    (code = None \/ code = Some "" ->
       response = Normal (AuthCallback.redirect "/auth?error=no_code" base)) /\
    (forall c, code = Some c -> c <> "" -> createClient = Normal tt ->
       (forall e, exchangeCodeForSession c = AuthCallback.Throws e ->
          response
          = Normal (AuthCallback.redirect "/auth?error=auth_failed" base)) /\
       (forall r, exchangeCodeForSession c = AuthCallback.Resolves r ->
          (URL_resolves next base = true ->
             response = Normal (AuthCallback.redirect next base)) /\
          (URL_resolves next base = false ->
             response
             = Normal (AuthCallback.redirect "/auth?error=auth_failed" base)))) /\
    (forall c e, code = Some c -> c <> "" -> createClient = Throw e ->
       response = Throw e) /\
    (nextParam = None \/ nextParam = Some "" -> next = "/bookmarks") /\
    (forall n, nextParam = Some n -> n <> "" -> next = n).
Proof.
  intros createClient ex resolves request code nextParam next base response
    Hno Hfail.
  subst code nextParam next base response.
  unfold AuthCallback.GET, AuthCallback.redirectTo, AuthCallback.awaitExchange.
  rewrite Hno, Hfail.
  split; [| split; [| split; [| split]]].
  - intros [H | H]; rewrite H; reflexivity.
  - intros c Hc Hne Hclient. rewrite Hc, Hclient.
    destruct c as [| a c]; [congruence |]. cbn [JS.truthy]. split.
    + intros e He. rewrite He. reflexivity.
    + intros r Hr. rewrite Hr. split; intro Hn; rewrite Hn; reflexivity.
  - intros c e Hc Hne Hclient. rewrite Hc, Hclient.
    destruct c as [| a c]; [congruence |]. reflexivity.
  - unfold AuthCallback.nextTarget. intros [H | H]; rewrite H; reflexivity.
  - unfold AuthCallback.nextTarget. intros n H Hn. rewrite H.
    destruct n; [congruence | reflexivity].
Qed.

Lemma GET_redirects_by_outcome_witness :
  let request := CallbackExample.with_code in
  let base := CallbackExample.callback_url in
  CallbackExample.resolves "/auth?error=no_code" base = true /\
  CallbackExample.resolves "/auth?error=auth_failed" base = true /\
  AuthCallback.get (AuthCallback.searchParams request) "code"
  = Some "4/0AbCdEf" /\
  "4/0AbCdEf" <> "" /\
  CallbackExample.client = Normal tt /\
  CallbackExample.rejecting "4/0AbCdEf" = AuthCallback.Throws "invalid grant" /\
  AuthCallback.GET CallbackExample.client CallbackExample.rejecting
    CallbackExample.resolves request
  = Normal (AuthCallback.redirect "/auth?error=auth_failed" base) /\
  CallbackExample.accepting "4/0AbCdEf" = AuthCallback.Resolves None /\
  CallbackExample.resolves (AuthCallback.nextTarget request) base = true /\
  AuthCallback.GET CallbackExample.client CallbackExample.accepting
    CallbackExample.resolves request
  = Normal (AuthCallback.redirect "/bookmarks?tab=fav" base).
Proof.
  intros request base.
  assert (Hne : "4/0AbCdEf" <> "") by discriminate.
  split; [reflexivity |]. split; [reflexivity |]. split; [reflexivity |].
  split; [exact Hne |]. split; [reflexivity |]. split; [reflexivity |].
  split.
  { apply (proj1 (proj1 (proj2
             (GET_redirects_by_outcome CallbackExample.client
                CallbackExample.rejecting CallbackExample.resolves request
                eq_refl eq_refl))
             "4/0AbCdEf" eq_refl Hne eq_refl) "invalid grant").
    reflexivity. }
  split; [reflexivity |]. split; [reflexivity |].
  apply (proj1 (proj2 (proj1 (proj2
           (GET_redirects_by_outcome CallbackExample.client
              CallbackExample.accepting CallbackExample.resolves request
              eq_refl eq_refl))
           "4/0AbCdEf" eq_refl Hne eq_refl) None eq_refl)).
  reflexivity.
Defined.

(** ** Runs on concrete inputs *)

Example trim_example : JS.trim "  https://example.com  " = "https://example.com".
Proof. reflexivity. Qed.

Example trim_unicode_example :
  JS.trim (nbsp ++ " Example" ++ ideographicSpace)%string = "Example" /\
  JS.trim nbsp = "".
Proof. split; reflexivity. Qed.

(** A title of one no-break space is refused by the form. *)
Example blank_title_example :
  let w := Example.filled "https://example.com" nbsp ""
             (Example.signedIn Example.env) in
  let w' := exec (App.submitForm Example.env) w in
  FormState.urlError (form w') = "Title is required" /\ sent w' = sent w.
Proof. split; reflexivity. Qed.

(** An update trims no-break and ideographic spaces too. *)
Example update_unicode_example :
  let w := Example.signedIn Example.env in
  sent (exec (BookmarksPage.handleUpdateBookmark Example.env "b1"
                ((nbsp ++ "Example" ++ nbsp)%string,
                 (ideographicSpace ++ "https://example.org")%string,
                 Some nbsp)) w)
  = sent w ++
    [Postgrest.update "bookmarks"
       (Postgrest.BookmarkFields "Example" "https://example.org" None
          Example.clock)
       [Postgrest.eq "id" "b1"; Postgrest.eq "user_id" "me"]].
Proof. reflexivity. Qed.

Example includes_example :
  JS.includes "rocq docs" "q d" = true /\ JS.includes "rocq docs" "qd" = false.
Proof. split; reflexivity. Qed.

Example load_example :
  PageState.bookmarks (page (Example.signedIn Example.env))
  = [Example.b2; Example.b1].
Proof. reflexivity. Qed.

Example search_example :
  PageState.filteredBookmarks (page (Example.searching "EXAMPLE" false))
  = [Example.b1] /\
  PageState.filteredBookmarks (page (Example.searching "manual" false))
  = [Example.b2] /\
  PageState.filteredBookmarks (page (Example.searching "o" true))
  = [Example.b2].
Proof. repeat split; reflexivity. Qed.

(** The echo of a delete removes the row from the Store. *)
Example delete_echo_example :
  Store.onChange "me" (mkPayload DELETE Example.b1 Example.b1)
    [Example.b2; Example.b1]
  = [Example.b2].
Proof. reflexivity. Qed.

(** A submission that passes validation sends one insert and changes
    the Store only when its echo arrives. *)
Example create_example :
  let w := Example.filled "https://example.com" "Example" ""
             (Example.signedIn Example.env) in
  let w' := exec (App.submitForm Example.env) w in
  length (sent w') = S (length (sent w)) /\
  PageState.bookmarks (page w') = PageState.bookmarks (page w).
Proof. split; reflexivity. Qed.

(** * Further properties of the code *)

(** ** The change feed beyond insert and update *)

Lemma subseq_refl : forall (A : Type) (l : list A), subseq l l.
Proof. induction l; constructor; assumption. Qed.

Lemma filter_subseq :
  forall (A : Type) (f : A -> bool) (l : list A), subseq (filter f l) l.
Proof.
  induction l as [| x l IH]; simpl; [constructor |].
  destruct (f x); constructor; exact IH.
Qed.

Lemma subseq_length :
  forall (A : Type) (l1 l2 : list A), subseq l1 l2 -> length l1 <= length l2.
Proof. induction 1; simpl; lia. Qed.

Lemma subseq_In :
  forall (A : Type) (l1 l2 : list A) x, subseq l1 l2 -> In x l1 -> In x l2.
Proof.
  induction 1; simpl; intros Hin; [exact Hin | right; auto |].
  destruct Hin as [-> | Hin]; [left; reflexivity | right; auto].
Qed.

Lemma filter_id_when_all :
  forall (A : Type) (f : A -> bool) (l : list A),
    (forall x, In x l -> f x = true) -> filter f l = l.
Proof.
  induction l as [| x l IH]; intros H; simpl; [reflexivity |].
  rewrite (H x (or_introl Logic.eq_refl)). f_equal.
  apply IH. intros y Hy. apply H. right. exact Hy.
Qed.

(** X1. The DELETE branch of the realtime callback, for an event that
    passes the ownership guard: the new list is the old one without the
    entries that have the deleted row's id, the others kept in order; it
    is the old list when no entry has that id; and delivering the same
    event again changes nothing. *)
Theorem ApplyDelete_removes_exactly_the_id :
  forall (me : string) (p : Payload) (prev : list Bookmark),
    eventType p = DELETE ->
    user_id (old p) = me ->
    let next := Store.onChange me p prev in
    (forall b, In b next <-> In b prev /\ id b <> id (old p)) /\
    subseq next prev /\
    ((forall b, In b prev -> id b <> id (old p)) -> next = prev) /\
    Store.onChange me p next = next.
Proof.
  intros me p prev Hev Hme next. subst next.
  unfold Store.onChange. rewrite Hev. unfold Store.ApplyDelete.
  apply strict_eq_true in Hme. rewrite Hme. simpl.
  split; [| split; [| split]].
  - intro b. rewrite filter_In, negb_true_iff, strict_eq_false. reflexivity.
  - apply filter_subseq.
  - intro H. apply filter_id_when_all. intros x Hx.
    apply negb_true_iff, strict_eq_false. apply H. exact Hx.
  - apply filter_id_when_all. intros x Hx.
    apply filter_In in Hx. apply Hx.
Qed.

Lemma ApplyDelete_removes_exactly_the_id_witness :
  let p := mkPayload DELETE Example.b1 Example.b1 in
  let prev := [Example.b2; Example.b1] in
  eventType p = DELETE /\
  user_id (old p) = "me" /\
  Store.onChange "me" p (Store.onChange "me" p prev) = Store.onChange "me" p prev /\
  subseq (Store.onChange "me" p prev) prev.
Proof.
  intros p prev. split; [reflexivity |]. split; [reflexivity |].
  destruct (ApplyDelete_removes_exactly_the_id "me" p prev eq_refl eq_refl)
    as [_ [Hsub [_ Hidem]]].
  split; [exact Hidem | exact Hsub].
Defined.

Lemma redeliver_insert :
  forall me p n l,
    eventType p = INSERT -> user_id (new p) = me ->
    redeliver me p n l = repeat (new p) n ++ l.
Proof.
  intros me p n l Hev Hme. induction n as [| n IH]; simpl; [reflexivity |].
  rewrite IH. unfold Store.onChange. rewrite Hev. unfold Store.ApplyInsert.
  apply strict_eq_true in Hme. rewrite Hme. reflexivity.
Qed.

(** X2. The feed does not deduplicate: an insert event for an own row
    delivered [n] times puts [n] copies of the row at the head of the
    list. A delete event for that row then removes all of them, and
    gives back the list from before the inserts when no entry of it had
    the row's id. *)
Theorem insert_redelivery_then_delete :
  forall (me : string) (row : Bookmark) (prev : list Bookmark) (n : nat),
    user_id row = me ->
    let ins := mkPayload INSERT row row in
    let del := mkPayload DELETE row row in
    redeliver me ins n prev = repeat row n ++ prev /\
    ((forall b, In b prev -> id b <> id row) ->
       Store.onChange me del (redeliver me ins n prev) = prev).
Proof.
  intros me row prev n Hme ins del. subst ins del.
  split; [apply redeliver_insert; [reflexivity | exact Hme] |].
  intro Hfresh. rewrite redeliver_insert by (try reflexivity; exact Hme).
  unfold Store.onChange. simpl. unfold Store.ApplyDelete.
  apply strict_eq_true in Hme. rewrite Hme. simpl.
  rewrite filter_app. replace (filter _ (repeat row n)) with (@nil Bookmark).
  - simpl. apply filter_id_when_all. intros x Hx.
    apply negb_true_iff, strict_eq_false. apply Hfresh. exact Hx.
  - symmetry. induction n as [| n IH]; simpl; [reflexivity |].
    unfold JS.strict_eq at 1. rewrite String.eqb_refl. simpl. exact IH.
Qed.

Lemma insert_redelivery_then_delete_witness :
  let ins := mkPayload INSERT Example.b1 Example.b1 in
  let del := mkPayload DELETE Example.b1 Example.b1 in
  user_id Example.b1 = "me" /\
  redeliver "me" ins 2 [Example.b2] = [Example.b1; Example.b1; Example.b2] /\
  (forall b, In b [Example.b2] -> id b <> id Example.b1) /\
  Store.onChange "me" del (redeliver "me" ins 2 [Example.b2]) = [Example.b2].
Proof.
  intros ins del.
  assert (Hfresh : forall b, In b [Example.b2] -> id b <> id Example.b1).
  { intros b [<- | []]. simpl. discriminate. }
  destruct (insert_redelivery_then_delete "me" Example.b1 [Example.b2] 2 eq_refl)
    as [Hins Hdel].
  split; [reflexivity |]. split; [exact Hins |]. split; [exact Hfresh |].
  exact (Hdel Hfresh).
Defined.

(** X3. Ids in the Store. An update event never changes the ids of the
    list nor their order. If the ids of the list are pairwise distinct,
    they stay so after any change event, provided an insert event
    carries an id that is not in the list yet. *)
Theorem change_events_keep_ids_distinct :
  forall (me : string) (p : Payload) (prev : list Bookmark),
    (eventType p = UPDATE -> ids (Store.onChange me p prev) = ids prev) /\
    (NoDup (ids prev) ->
     (eventType p = INSERT -> ~ In (id (new p)) (ids prev)) ->
     NoDup (ids (Store.onChange me p prev))).
Proof.
  intros me p prev.
  assert (Hupd : ids (Store.ApplyUpdate me (new p) prev) = ids prev).
  { unfold Store.ApplyUpdate, ids.
    destruct (negb (JS.strict_eq (user_id (new p)) me)); [reflexivity |].
    rewrite map_map. apply map_ext. intro b.
    destruct (JS.strict_eq (id b) (id (new p))) eqn:E; [| reflexivity].
    apply strict_eq_true in E. symmetry. exact E. }
  split.
  - intro Hev. unfold Store.onChange. rewrite Hev. exact Hupd.
  - intros Hnd Hfresh. unfold Store.onChange.
    destruct (eventType p).
    + unfold Store.ApplyInsert.
      destruct (negb (JS.strict_eq (user_id (new p)) me)); [exact Hnd |].
      simpl. constructor; [apply Hfresh; reflexivity | exact Hnd].
    + rewrite Hupd. exact Hnd.
    + unfold Store.ApplyDelete.
      destruct (negb (JS.strict_eq (user_id (old p)) me)); [exact Hnd |].
      clear Hfresh Hupd. unfold ids in *.
      induction prev as [| x l IH]; simpl; [constructor |].
      inversion Hnd as [| y l' Hnotin Hnd']; subst.
      destruct (negb (JS.strict_eq (id x) (id (old p)))); simpl.
      * constructor; [| apply IH; exact Hnd'].
        intro Hin. apply Hnotin. apply in_map_iff in Hin.
        destruct Hin as [b [Hb Hin]]. apply filter_In in Hin.
        apply in_map_iff. exists b. split; [exact Hb | apply Hin].
      * apply IH. exact Hnd'.
Qed.

Lemma change_events_keep_ids_distinct_witness :
  let p := mkPayload INSERT Example.b2 Example.b2 in
  NoDup (ids [Example.b1]) /\
  (eventType p = INSERT -> ~ In (id (new p)) (ids [Example.b1])) /\
  NoDup (ids (Store.onChange "me" p [Example.b1])).
Proof.
  intros p.
  assert (H1 : NoDup (ids [Example.b1])).
  { constructor; [intros [] | constructor]. }
  assert (H2 : eventType p = INSERT -> ~ In (id (new p)) (ids [Example.b1])).
  { intros _ [H | []]. discriminate H. }
  split; [exact H1 |]. split; [exact H2 |].
  exact (proj2 (change_events_keep_ids_distinct "me" p [Example.b1]) H1 H2).
Defined.

(** ** The display list and the list panel *)

Lemma includes_empty : forall s, JS.includes s "" = true.
Proof. intros s. apply includes_iff. exists "", s. reflexivity. Qed.

Lemma keep_all :
  forall env b,
    toLowerCase env "" = "" -> BookmarksPage.keep env "" false b = true.
Proof.
  intros env b H. unfold BookmarksPage.keep. rewrite H.
  rewrite !includes_empty. reflexivity.
Qed.

Lemma Filter_all :
  forall env l,
    toLowerCase env "" = "" -> BookmarksPage.Filter env "" false l = l.
Proof.
  intros env l H. unfold BookmarksPage.Filter. apply filter_id_when_all.
  intros b _. apply keep_all. exact H.
Qed.

Lemma filterEffect_result :
  forall env w,
    PageState.filteredBookmarks (page (exec (BookmarksPage.filterEffect env) w))
    = BookmarksPage.Filter env (PageState.searchQuery (page w))
        (PageState.showFavoritesOnly (page w)) (PageState.bookmarks (page w)) /\
    PageState.bookmarks (page (exec (BookmarksPage.filterEffect env) w))
    = PageState.bookmarks (page w).
Proof. intros env w. split; reflexivity. Qed.



Lemma filter_filter_and :
  forall (A : Type) (f g : A -> bool) (l : list A),
    filter f (filter g l) = filter (fun x => g x && f x) l.
Proof.
  induction l as [| x l IH]; simpl; [reflexivity |].
  destruct (g x); simpl; [destruct (f x) |]; rewrite IH; reflexivity.
Qed.

(** X6. How the two parts of the filter compose. The display list is
    the Store with entries left out, in the Store's order. The list for
    favorites only is the list for the same query without the toggle,
    restricted to the bookmarks whose favorite flag is true (a null flag
    counts as false). Filtering a display list again with the same query
    and toggle gives it back. *)
Theorem Filter_composes :
  forall (env : Env) (q : string) (favoritesOnly : bool) (l : list Bookmark),
    subseq (BookmarksPage.Filter env q favoritesOnly l) l /\
    BookmarksPage.Filter env q true l
    = filter (fun b => BookmarksPage.Boolean (is_favorite b))
             (BookmarksPage.Filter env q false l) /\
    BookmarksPage.Filter env q favoritesOnly
      (BookmarksPage.Filter env q favoritesOnly l)
    = BookmarksPage.Filter env q favoritesOnly l.
Proof.
  intros env q fav l. unfold BookmarksPage.Filter.
  split; [apply filter_subseq |]. split.
  - rewrite filter_filter_and. apply filter_ext. intro b.
    unfold BookmarksPage.keep. simpl.
    rewrite andb_comm. reflexivity.
  - apply filter_id_when_all. intros x Hx. apply filter_In in Hx. apply Hx.
Qed.

(** ** What the handlers leave alone *)

Lemma keepsStore_ret : forall A (a : A), keepsStore (ret a).
Proof. intros A a w. reflexivity. Qed.

Lemma keepsStore_throw : forall A e, keepsStore (@throw A e).
Proof. intros A e w. reflexivity. Qed.

Lemma keepsStore_readWorld : forall A (f : World -> A), keepsStore (readWorld f).
Proof. intros A f w. reflexivity. Qed.

Lemma keepsStore_modifyForm : forall f, keepsStore (modifyForm f).
Proof. intros f w. reflexivity. Qed.

Lemma keepsStore_modifyList : forall f, keepsStore (modifyList f).
Proof. intros f w. reflexivity. Qed.

Lemma keepsStore_setError : forall e, keepsStore (BookmarksPage.setError e).
Proof. intros e w. reflexivity. Qed.

Lemma keepsStore_await : forall env r, keepsStore (BookmarksPage.await env r).
Proof.
  intros env r w. unfold BookmarksPage.await.
  destruct (backend env r); reflexivity.
Qed.

Lemma keepsStore_bind :
  forall A B (m : Eff A) (k : A -> Eff B),
    keepsStore m -> (forall a, keepsStore (k a)) -> keepsStore (bind m k).
Proof.
  intros A B m k Hm Hk w. unfold bind. specialize (Hm w).
  destruct (m w) as [[a | e] w1]; simpl in *.
  - rewrite Hk. exact Hm.
  - exact Hm.
Qed.

Lemma keepsStore_try_catch :
  forall A (m : Eff A) (h : string -> Eff A),
    keepsStore m -> (forall e, keepsStore (h e)) -> keepsStore (try_catch m h).
Proof.
  intros A m h Hm Hh w. unfold try_catch. specialize (Hm w).
  destruct (m w) as [[a | e] w1]; simpl in *.
  - exact Hm.
  - rewrite Hh. exact Hm.
Qed.

Lemma keepsStore_try_finally :
  forall A (m : Eff A) (c : Eff unit),
    keepsStore m -> keepsStore c -> keepsStore (try_finally m c).
Proof.
  intros A m c Hm Hc w. unfold try_finally. specialize (Hm w).
  destruct (m w) as [r w1]. specialize (Hc w1).
  destruct (c w1) as [[u | e] w2]; simpl in *; congruence.
Qed.

Ltac keeps_step :=
  lazymatch goal with
  | |- keepsStore (ret _) => apply keepsStore_ret
  | |- keepsStore (throw _) => apply keepsStore_throw
  | |- keepsStore (readWorld _) => apply keepsStore_readWorld
  | |- keepsStore (modifyForm _) => apply keepsStore_modifyForm
  | |- keepsStore (modifyList _) => apply keepsStore_modifyList
  | |- keepsStore (BookmarksPage.setError _) => apply keepsStore_setError
  | |- keepsStore (BookmarksPage.await _ _) => apply keepsStore_await
  | |- keepsStore (try_finally _ _) => apply keepsStore_try_finally
  | |- keepsStore (try_catch _ _) => apply keepsStore_try_catch; [| intro]
  | |- keepsStore (bind _ _) => apply keepsStore_bind; [| intro]
  | |- keepsStore (if ?c then _ else _) => destruct c
  | |- keepsStore (match ?x with _ => _ end) => destruct x
  | |- keepsStore (let _ := _ in _) => cbv zeta
  end.

Ltac keeps_store := repeat keeps_step.

Lemma keepsStore_handleAddBookmark :
  forall env url title description,
    keepsStore (BookmarksPage.handleAddBookmark env url title description).
Proof.
  intros. unfold BookmarksPage.handleAddBookmark, BookmarksPage.throwIf.
  keeps_store.
Qed.

Lemma keepsStore_handleDeleteBookmark :
  forall env id0, keepsStore (BookmarksPage.handleDeleteBookmark env id0).
Proof.
  intros. unfold BookmarksPage.handleDeleteBookmark, BookmarksPage.throwIf.
  keeps_store.
Qed.

Lemma keepsStore_handleUpdateBookmark :
  forall env id0 updates,
    keepsStore (BookmarksPage.handleUpdateBookmark env id0 updates).
Proof.
  intros env id0 [[t l] d].
  unfold BookmarksPage.handleUpdateBookmark, BookmarksPage.throwIf.
  keeps_store.
Qed.

Lemma keepsStore_handleToggleFavorite :
  forall env id0 f, keepsStore (BookmarksPage.handleToggleFavorite env id0 f).
Proof.
  intros. unfold BookmarksPage.handleToggleFavorite, BookmarksPage.throwIf.
  keeps_store.
Qed.

Ltac keeps_store_wired :=
  repeat first
    [ apply keepsStore_handleAddBookmark
    | apply keepsStore_handleDeleteBookmark
    | apply keepsStore_handleUpdateBookmark
    | apply keepsStore_handleToggleFavorite
    | keeps_step ].

Lemma keepsStore_submitForm : forall env, keepsStore (App.submitForm env).
Proof.
  intro env.
  unfold App.submitForm, BookmarkForm.handleSubmit,
    BookmarkForm.setUrlError, BookmarkForm.setSuccessMessage,
    BookmarkForm.setIsLoading, BookmarkForm.setUrl, BookmarkForm.setTitle,
    BookmarkForm.setDescription.
  keeps_store_wired.
Qed.

Lemma keepsStore_clickSave : forall env id0, keepsStore (App.clickSave env id0).
Proof.
  intros env id0.
  unfold App.clickSave, BookmarkList.saveEdit, BookmarkList.setUpdating,
    BookmarkList.cancelEdit.
  keeps_store_wired.
Qed.

Lemma keepsStore_clickFavorite :
  forall env bookmark, keepsStore (App.clickFavorite env bookmark).
Proof.
  intros env bookmark.
  unfold App.clickFavorite, BookmarkList.handleFavorite,
    BookmarkList.setUpdating.
  keeps_store_wired.
Qed.

Lemma keepsStore_clickDelete :
  forall env id0, keepsStore (App.clickDelete env id0).
Proof.
  intros env id0.
  unfold App.clickDelete, BookmarkList.handleDelete,
    BookmarkList.handleDelete_start, BookmarkList.querySelector,
    BookmarkList.tweenOut, BookmarkList.tweenBack, BookmarkList.setDeleting.
  keeps_store_wired.
Qed.

(** X7. Mutation and reconciliation are decoupled: no handler of the
    form or of the list component changes the Store's list, whatever the
    backing store answers, whether or not a user is signed in. Submitting
    the form, saving an edit, toggling a favorite and clicking delete
    all leave the list as it is; it changes only through Load and the
    change feed. *)
Theorem component_handlers_keep_store :
  forall (env : Env) (w : World) (id0 : string) (bookmark : Bookmark),
    let store w' := PageState.bookmarks (page w') in
    store (exec (App.submitForm env) w) = store w /\
    store (exec (App.clickSave env id0) w) = store w /\
    store (exec (App.clickFavorite env bookmark) w) = store w /\
    store (exec (App.clickDelete env id0) w) = store w.
Proof.
  intros env w id0 bookmark store. subst store. cbv beta.
  split; [exact (keepsStore_submitForm env w) |].
  split; [exact (keepsStore_clickSave env id0 w) |].
  split; [exact (keepsStore_clickFavorite env bookmark w) |].
  exact (keepsStore_clickDelete env id0 w).
Qed.

(** ** The gateway handlers as the components see them *)

Ltac page_only env :=
  unfold BookmarksPage.await, BookmarksPage.throwIf,
    BookmarksPage.setError, modifyPage, throw, ret;
  match goal with
  | |- context [backend env ?r] =>
      destruct (backend env r) as [[? [? |]] | ?]; simpl;
      eexists; eexists; reflexivity
  end.

Lemma pageOnly_handleAddBookmark :
  forall env url title description,
    pageOnly (BookmarksPage.handleAddBookmark env url title description).
Proof.
  intros env url title description w.
  unfold BookmarksPage.handleAddBookmark, try_catch, bind.
  destruct (getSession env) as [session |].
  - page_only env.
  - exists (page w), (sent w). destruct w; reflexivity.
Qed.

Lemma pageOnly_handleDeleteBookmark :
  forall env id0, pageOnly (BookmarksPage.handleDeleteBookmark env id0).
Proof.
  intros env id0 w.
  unfold BookmarksPage.handleDeleteBookmark, try_catch, bind, readWorld.
  destruct (PageState.user (page w)) as [u |].
  - page_only env.
  - exists (page w), (sent w). destruct w; reflexivity.
Qed.

Lemma pageOnly_handleUpdateBookmark :
  forall env id0 updates,
    pageOnly (BookmarksPage.handleUpdateBookmark env id0 updates).
Proof.
  intros env id0 [[t l] d] w.
  unfold BookmarksPage.handleUpdateBookmark, try_catch, bind, readWorld.
  destruct (PageState.user (page w)) as [u |].
  - page_only env.
  - exists (page w), (sent w). destruct w; reflexivity.
Qed.

Lemma pageOnly_handleToggleFavorite :
  forall env id0 f, pageOnly (BookmarksPage.handleToggleFavorite env id0 f).
Proof.
  intros env id0 f w.
  unfold BookmarksPage.handleToggleFavorite, try_catch, bind, readWorld.
  destruct (PageState.user (page w)) as [u |].
  - page_only env.
  - exists (page w), (sent w). destruct w; reflexivity.
Qed.

(** X8. Without a signed-in user the gateway does nothing, silently:
    with no session, Create and Load send no request, and with no user
    in the page state, Update, Delete and ToggleFavorite send none; the
    page, banner included, the form and the list are left exactly as
    they were and the handler returns normally. *)
Theorem gateway_without_user_is_silent :
  forall (env : Env) (w : World),
    (getSession env = None ->
       (forall url title description,
           BookmarksPage.handleAddBookmark env url title description w
           = (Normal tt, w)) /\
       BookmarksPage.loadBookmarks env w = (Normal tt, w)) /\
    (PageState.user (page w) = None ->
       (forall id0 updates,
           BookmarksPage.handleUpdateBookmark env id0 updates w
           = (Normal tt, w)) /\
       (forall id0,
           BookmarksPage.handleDeleteBookmark env id0 w = (Normal tt, w)) /\
       (forall id0 isFavorite,
           BookmarksPage.handleToggleFavorite env id0 isFavorite w
           = (Normal tt, w))).
Proof.
  intros env w. split.
  - intro Hs. split.
    + intros url title description.
      unfold BookmarksPage.handleAddBookmark, try_catch. rewrite Hs.
      reflexivity.
    + unfold BookmarksPage.loadBookmarks, try_catch. rewrite Hs. reflexivity.
  - intro Hu. split; [| split].
    + intros id0 [[t l] d].
      unfold BookmarksPage.handleUpdateBookmark, try_catch, bind, readWorld.
      rewrite Hu. reflexivity.
    + intro id0.
      unfold BookmarksPage.handleDeleteBookmark, try_catch, bind, readWorld.
      rewrite Hu. reflexivity.
    + intros id0 f.
      unfold BookmarksPage.handleToggleFavorite, try_catch, bind, readWorld.
      rewrite Hu. reflexivity.
Qed.

Lemma gateway_without_user_is_silent_witness :
  PageState.user (page initialWorld) = None /\
  BookmarksPage.handleDeleteBookmark Example.env "b1" initialWorld
  = (Normal tt, initialWorld).
Proof.
  split; [reflexivity |].
  apply (proj2 (gateway_without_user_is_silent Example.env initialWorld)).
  reflexivity.
Defined.

Lemma gatewayRun_succeeded :
  forall env h r msg w,
    gatewayRun env h r msg w ->
    Postgrest.failed (backend env r) = false ->
    page (exec h w) = page w /\ sent (exec h w) = sent w ++ [r].
Proof.
  intros env h r msg w [pg [Hrun [_ [_ Hok]]]] Hf.
  unfold exec. rewrite Hrun. simpl. split; [apply Hok; exact Hf | reflexivity].
Qed.

(** X9. A gateway operation that succeeds at the backing store changes
    nothing on the page: the Store, and a banner left by an earlier
    failure, stay as they are; the operation shows only in the one
    request it sent. *)
Theorem Gateway_success_leaves_page :
  forall (env : Env) (session : Session) (u : User) (w : World),
    getSession env = Some session ->
    PageState.user (page w) = Some u ->
    let succeeds r := Postgrest.failed (backend env r) = false in
    (forall url title description,
        succeeds (insertRequest session url title description) ->
        let w' :=
          exec (BookmarksPage.handleAddBookmark env url title description) w in
        page w' = page w /\
        sent w' = sent w ++ [insertRequest session url title description]) /\
    (forall id0 updates,
        succeeds (updateRequest env u id0 updates) ->
        let w' := exec (BookmarksPage.handleUpdateBookmark env id0 updates) w in
        page w' = page w /\
        sent w' = sent w ++ [updateRequest env u id0 updates]) /\
    (forall id0,
        succeeds (deleteRequest u id0) ->
        let w' := exec (BookmarksPage.handleDeleteBookmark env id0) w in
        page w' = page w /\ sent w' = sent w ++ [deleteRequest u id0]) /\
    (forall id0 isFavorite,
        succeeds (toggleRequest env u id0 isFavorite) ->
        let w' :=
          exec (BookmarksPage.handleToggleFavorite env id0 isFavorite) w in
        page w' = page w /\
        sent w' = sent w ++ [toggleRequest env u id0 isFavorite]).
Proof.
  intros env session u w Hs Hu succeeds. subst succeeds. cbv beta.
  split; [| split; [| split]].
  - intros url title description Hf w'. subst w'.
    eapply gatewayRun_succeeded; [apply handleAddBookmark_run; exact Hs | exact Hf].
  - intros id0 updates Hf w'. subst w'.
    eapply gatewayRun_succeeded; [apply handleUpdateBookmark_run; exact Hu | exact Hf].
  - intros id0 Hf w'. subst w'.
    eapply gatewayRun_succeeded; [apply handleDeleteBookmark_run; exact Hu | exact Hf].
  - intros id0 f Hf w'. subst w'.
    eapply gatewayRun_succeeded; [apply handleToggleFavorite_run; exact Hu | exact Hf].
Qed.

Lemma Gateway_success_leaves_page_witness :
  let w := exec (BookmarksPage.setError (Some "Failed to add bookmark"))
             (Example.signedIn Example.env) in
  let w' := exec (BookmarksPage.handleDeleteBookmark Example.env "b1") w in
  getSession Example.env = Some Example.session /\
  PageState.user (page w) = Some Example.me /\
  Postgrest.failed (backend Example.env (deleteRequest Example.me "b1")) = false /\
  page w' = page w /\
  sent w' = sent w ++ [deleteRequest Example.me "b1"].
Proof.
  intros w w'.
  split; [reflexivity |]. split; [reflexivity |]. split; [reflexivity |].
  destruct (Gateway_success_leaves_page Example.env Example.session
              Example.me w eq_refl eq_refl) as [_ [_ [Hdel _]]].
  exact (Hdel "b1" eq_refl).
Defined.

(** ** Load *)

(** X10. The two outcomes of Load for a signed-in session. When the
    read fails (an error in the answer, or a rejected promise) the
    Store keeps the list it had and the banner is "Failed to load
    bookmarks". When it succeeds the Store is replaced by the returned
    rows, by the empty list if the answer carries no rows, and the
    banner is cleared. *)
Theorem Load_outcomes :
  forall (env : Env) (session : Session) (w : World),
    getSession env = Some session ->
    let answer := backend env (loadRequest session) in
    let w' := exec (BookmarksPage.loadBookmarks env) w in
    (Postgrest.failed answer = true ->
       PageState.bookmarks (page w') = PageState.bookmarks (page w) /\
       PageState.error (page w') = Some "Failed to load bookmarks") /\
    (forall r,
        answer = Postgrest.Fulfilled r -> Postgrest.error r = None ->
        PageState.bookmarks (page w')
        = match Postgrest.data r with Some d => d | None => [] end /\
        PageState.error (page w') = None).
Proof.
  intros env session w Hs answer w'. subst answer w'.
  unfold exec, BookmarksPage.loadBookmarks, try_catch. rewrite Hs.
  unfold bind, BookmarksPage.await.
  change (Postgrest.select "bookmarks" "*"
            [Postgrest.eq "user_id" (uid (user session))] "created_at" false)
    with (loadRequest session).
  destruct (backend env (loadRequest session)) as [r | reason]; simpl.
  - unfold BookmarksPage.throwIf.
    destruct (Postgrest.error r) as [e |] eqn:Ee; simpl.
    + split; [intros _; split; reflexivity |].
      intros r0 H0 He. injection H0 as <-. congruence.
    + split; [discriminate |].
      intros r0 H0 _. injection H0 as <-. split; reflexivity.
  - split; [intros _; split; reflexivity |].
    intros r0 H0. discriminate H0.
Qed.

Lemma Load_outcomes_witness :
  let w := Example.signedIn Example.env in
  let w' := exec (BookmarksPage.loadBookmarks Example.env_refused) w in
  getSession Example.env_refused = Some Example.session /\
  Postgrest.failed
    (backend Example.env_refused (loadRequest Example.session)) = true /\
  PageState.bookmarks (page w') = PageState.bookmarks (page w) /\
  PageState.error (page w') = Some "Failed to load bookmarks".
Proof.
  intros w w'. split; [reflexivity |]. split; [reflexivity |].
  apply (proj1 (Load_outcomes Example.env_refused Example.session w eq_refl)).
  reflexivity.
Defined.

(** ** The form after a submission *)

Ltac enter_handleSubmit :=
  unfold App.submitForm, BookmarkForm.handleSubmit, BookmarkForm.validateUrl;
  unfold exec, bind, readWorld, BookmarkForm.setUrlError,
    BookmarkForm.setSuccessMessage, modifyForm;
  cbn [fst snd form page sent blist
    FormState.url FormState.title FormState.description FormState.isLoading
    FormState.urlError FormState.successMessage].

(** X11. A submission that passes the three checks always ends as a
    success for the form: the three fields are emptied, the busy flag
    and the error text are cleared and the success message is shown,
    whatever the backing store answers and even with no session. The
    page's Create handler catches its own failures, so the form's
    "Failed to save bookmark" branch is not reached. The list component
    is not touched, and with no session nothing is sent and the page is
    unchanged. *)
Theorem valid_submission_ends_in_success_state :
  forall (env : Env) (w : World),
    ~ urlMissing (FormState.url (form w)) ->
    ~ urlInvalid env (FormState.url (form w)) ->
    ~ titleMissing (FormState.title (form w)) ->
    let w' := exec (App.submitForm env) w in
    form w' = formAfterSuccess /\
    blist w' = blist w /\
    (getSession env = None -> page w' = page w /\ sent w' = sent w).
Proof.
  intros env w H1 H2 H3 w'. subst w'.
  unfold urlMissing, urlInvalid, titleMissing in *.
  enter_handleSubmit.
  destruct (negb (JS.truthy (JS.trim (FormState.url (form w))))) eqn:E1.
  { apply not_truthy_iff in E1. contradiction. }
  destruct (negb (URL_parses env (FormState.url (form w)))) eqn:E2.
  { apply negb_true_iff in E2. contradiction. }
  destruct (negb (JS.truthy (JS.trim (FormState.title (form w))))) eqn:E3.
  { apply not_truthy_iff in E3. contradiction. }
  unfold BookmarkForm.setIsLoading, modifyForm, try_finally, try_catch.
  cbn [fst snd form page sent blist].
  match goal with
  | |- context [BookmarksPage.handleAddBookmark env ?a ?b ?c ?w1] =>
      destruct (pageOnly_handleAddBookmark env a b c w1) as [pg [s Hrun]];
      pose proof (proj1 (gateway_without_user_is_silent env w1)) as Hsilent;
      specialize (fun Hn => proj1 (Hsilent Hn) a b c) as Hnone;
      clear Hsilent
  end.
  split; [rewrite Hrun; reflexivity |].
  split; [rewrite Hrun; reflexivity |].
  intro Hs. rewrite (Hnone Hs). split; reflexivity.
Qed.

Lemma valid_submission_ends_in_success_state_witness :
  let w := Example.filled "https://example.com" "Example" ""
             (Example.signedIn Example.env) in
  ~ urlMissing (FormState.url (form w)) /\
  ~ urlInvalid Example.env_refused (FormState.url (form w)) /\
  ~ titleMissing (FormState.title (form w)) /\
  form (exec (App.submitForm Example.env_refused) w) = formAfterSuccess.
Proof.
  intros w.
  assert (H1 : ~ urlMissing (FormState.url (form w)))
    by (vm_compute; discriminate).
  assert (H2 : ~ urlInvalid Example.env_refused (FormState.url (form w)))
    by (vm_compute; discriminate).
  assert (H3 : ~ titleMissing (FormState.title (form w)))
    by (vm_compute; discriminate).
  split; [exact H1 |]. split; [exact H2 |]. split; [exact H3 |].
  exact (proj1 (valid_submission_ends_in_success_state Example.env_refused w
                  H1 H2 H3)).
Defined.

(** ** Editing in the list component *)

(** X12. [saveEdit] refuses an edit whose title or url is empty after
    trimming, or whose trimmed url is not a valid URL: nothing is sent,
    no state changes, the row stays in edit mode with the fields as
    typed, and no message is shown. *)
Theorem saveEdit_refuses_invalid_edit :
  forall (env : Env) (w : World) (bookmarkId : string),
    ~ editAccepted env (blist w) ->
    App.clickSave env bookmarkId w = (Normal tt, w).
Proof.
  intros env w bookmarkId Hrej. unfold editAccepted in Hrej.
  unfold App.clickSave, BookmarkList.saveEdit, BookmarkList.validateUrl.
  unfold bind at 1, readWorld. cbv zeta.
  destruct (negb (JS.truthy (JS.trim (ListState.editTitle (blist w))))) eqn:E1;
    [reflexivity |].
  destruct (negb (JS.truthy (JS.trim (ListState.editUrl (blist w))))) eqn:E2;
    [reflexivity |].
  destruct (negb (URL_parses env (JS.trim (ListState.editUrl (blist w)))))
    eqn:E3; [reflexivity |].
  exfalso. apply Hrej. repeat split.
  - intro H. apply not_truthy_iff in H. congruence.
  - intro H. apply not_truthy_iff in H. congruence.
  - apply negb_false_iff. exact E3.
Qed.

Lemma saveEdit_refuses_invalid_edit_witness :
  let w := exec (BookmarkList.startEdit
                   (mkBookmark "b1" "example.com" "Example" None None "" "" "me"))
             (Example.signedIn Example.env) in
  ~ editAccepted Example.env (blist w) /\
  App.clickSave Example.env "b1" w = (Normal tt, w).
Proof.
  intros w.
  assert (H : ~ editAccepted Example.env (blist w)).
  { intros [_ [_ H]]. vm_compute in H. discriminate H. }
  split; [exact H |].
  exact (saveEdit_refuses_invalid_edit Example.env w "b1" H).
Defined.

Lemma clickSave_accepted_run :
  forall env w bookmarkId pg s',
    editAccepted env (blist w) ->
    let w1 := exec (BookmarkList.setUpdating (Some bookmarkId)) w in
    BookmarksPage.handleUpdateBookmark env bookmarkId
      (ListState.editTitle (blist w), ListState.editUrl (blist w),
       nullIfEmpty (ListState.editDescription (blist w))) w1
    = (Normal tt, mkWorld pg (form w1) (blist w1) s') ->
    App.clickSave env bookmarkId w
    = (Normal tt, mkWorld pg (form w) (editClosed (blist w)) s').
Proof.
  intros env w bookmarkId pg s' [H1 [H2 H3]] w1 Hrun. subst w1.
  unfold App.clickSave, BookmarkList.saveEdit, BookmarkList.validateUrl.
  unfold bind at 1, readWorld. cbv zeta.
  destruct (negb (JS.truthy (JS.trim (ListState.editTitle (blist w))))) eqn:E1.
  { apply not_truthy_iff in E1. contradiction. }
  destruct (negb (JS.truthy (JS.trim (ListState.editUrl (blist w))))) eqn:E2.
  { apply not_truthy_iff in E2. contradiction. }
  rewrite H3. cbn [negb orb].
  unfold bind at 1. unfold try_finally, bind. rewrite or_null_nullIfEmpty.
  unfold exec in Hrun.
  destruct (BookmarkList.setUpdating (Some bookmarkId) w) as [c0 w1] eqn:E0.
  unfold BookmarkList.setUpdating, modifyList in E0.
  injection E0 as <- <-. cbn [snd] in Hrun. rewrite Hrun.
  reflexivity.
Qed.

(** X13. [saveEdit] on an accepted edit: whatever the backing store
    answers, the list component ends out of edit mode, with the edit
    fields emptied and no row marked as updating, and the form is not
    touched. With a user signed in, exactly one request is sent: the
    update of Update for the row's id, with the typed title and url and
    the typed description, null when it is empty. *)
Theorem saveEdit_sends_update_and_closes_edit :
  forall (env : Env) (w : World) (bookmarkId : string),
    editAccepted env (blist w) ->
    let s := blist w in
    let w' := exec (App.clickSave env bookmarkId) w in
    blist w' = editClosed s /\
    form w' = form w /\
    (forall u, PageState.user (page w) = Some u ->
       sent w' = sent w ++
         [updateRequest env u bookmarkId
            (ListState.editTitle s, ListState.editUrl s,
             nullIfEmpty (ListState.editDescription s))]).
Proof.
  intros env w bookmarkId Hacc s w'. subst s w'.
  set (w1 := exec (BookmarkList.setUpdating (Some bookmarkId)) w).
  set (upd := (ListState.editTitle (blist w), ListState.editUrl (blist w),
               nullIfEmpty (ListState.editDescription (blist w)))).
  destruct (pageOnly_handleUpdateBookmark env bookmarkId upd w1)
    as [pg [s Hrun]].
  pose proof (clickSave_accepted_run env w bookmarkId pg s Hacc Hrun) as Hres.
  unfold exec. rewrite Hres. simpl.
  split; [reflexivity |]. split; [reflexivity |].
  intros u Hu.
  destruct (handleUpdateBookmark_run env u bookmarkId upd w1 Hu)
    as [pg' [Hrun' _]].
  rewrite Hrun' in Hrun. injection Hrun as _ <-. reflexivity.
Qed.

Lemma saveEdit_sends_update_and_closes_edit_witness :
  let w := editing Example.b1_edited (Example.signedIn Example.env) in
  editAccepted Example.env_refused (blist w) /\
  blist (exec (App.clickSave Example.env_refused "b1") w)
  = editClosed (blist w) /\
  sent (exec (App.clickSave Example.env_refused "b1") w)
  = sent w ++
    [updateRequest Example.env_refused Example.me "b1"
       ("Example (edited)", "https://example.org", Some "moved")].
Proof.
  intros w.
  assert (H : editAccepted Example.env_refused (blist w)).
  { split; [| split]; vm_compute; [discriminate | discriminate | reflexivity]. }
  split; [exact H |].
  destruct (saveEdit_sends_update_and_closes_edit Example.env_refused w "b1" H)
    as [Hclosed [_ Hsent]].
  split; [exact Hclosed |]. exact (Hsent Example.me eq_refl).
Defined.

(** X14. Opening a row for editing and saving it untouched writes the
    row back as it is, up to trimming: the update sent carries the row's
    id, its title and url trimmed, and its description trimmed, null if
    that leaves nothing or if it was null. *)
Theorem edit_untouched_writes_row_back :
  forall (env : Env) (w : World) (u : User) (b : Bookmark),
    PageState.user (page w) = Some u ->
    JS.trim (title b) <> "" ->
    JS.trim (url b) <> "" ->
    URL_parses env (JS.trim (url b)) = true ->
    sent (exec (App.clickSave env (id b)) (editing b w))
    = sent w ++
      [Postgrest.update "bookmarks"
         (Postgrest.BookmarkFields (JS.trim (title b)) (JS.trim (url b))
            (match description b with
             | Some d => nullIfEmpty (JS.trim d)
             | None => None
             end)
            (toISOString_now env))
         [Postgrest.eq "id" (id b); Postgrest.eq "user_id" (uid u)]].
Proof.
  intros env w u b Hu H1 H2 H3.
  assert (Hacc : editAccepted env (blist (editing b w))).
  { unfold editAccepted, editing. simpl. auto. }
  destruct (saveEdit_sends_update_and_closes_edit env (editing b w) (id b) Hacc)
    as [_ [_ Hsent]].
  rewrite (Hsent u Hu). unfold editing. simpl. unfold ownRow.
  destruct (description b) as [d |]; simpl; [| reflexivity].
  unfold JS.or_else. destruct d as [| c d]; simpl; [reflexivity |].
  rewrite or_null_nullIfEmpty. reflexivity.
Qed.

Lemma edit_untouched_writes_row_back_witness :
  let w := Example.signedIn Example.env in
  PageState.user (page w) = Some Example.me /\
  JS.trim (title Example.b2) <> "" /\
  JS.trim (url Example.b2) <> "" /\
  URL_parses Example.env (JS.trim (url Example.b2)) = true /\
  sent (exec (App.clickSave Example.env "b2") (editing Example.b2 w))
  = sent w ++
    [Postgrest.update "bookmarks"
       (Postgrest.BookmarkFields "Rocq Docs" "https://rocq-prover.org/docs"
          (Some "Reference Manual") Example.clock)
       [Postgrest.eq "id" "b2"; Postgrest.eq "user_id" "me"]].
Proof.
  intros w.
  assert (H1 : JS.trim (title Example.b2) <> "") by (vm_compute; discriminate).
  assert (H2 : JS.trim (url Example.b2) <> "") by (vm_compute; discriminate).
  split; [reflexivity |]. split; [exact H1 |]. split; [exact H2 |].
  split; [reflexivity |].
  exact (edit_untouched_writes_row_back Example.env w Example.me Example.b2
           eq_refl H1 H2 eq_refl).
Defined.

(** ** Favorite and delete in the list component *)

Lemma clickFavorite_run :
  forall env w bookmark pg s',
    let w1 := exec (BookmarkList.setUpdating (Some (id bookmark))) w in
    BookmarksPage.handleToggleFavorite env (id bookmark)
      (BookmarksPage.Boolean (is_favorite bookmark)) w1
    = (Normal tt, mkWorld pg (form w1) (blist w1) s') ->
    App.clickFavorite env bookmark w
    = (Normal tt,
       mkWorld pg (form w)
         (ListState.mk (ListState.deleting (blist w)) None
            (ListState.editingId (blist w)) (ListState.editTitle (blist w))
            (ListState.editUrl (blist w)) (ListState.editDescription (blist w))
            (ListState.tweenedOut (blist w)))
         s').
Proof.
  intros env w bookmark pg s' w1 Hrun. subst w1.
  unfold App.clickFavorite, BookmarkList.handleFavorite.
  unfold bind at 1. unfold try_finally. unfold exec in Hrun.
  destruct (BookmarkList.setUpdating (Some (id bookmark)) w) as [c0 w1] eqn:E0.
  unfold BookmarkList.setUpdating, modifyList in E0.
  injection E0 as <- <-. cbn [snd] in Hrun. rewrite Hrun.
  reflexivity.
Qed.

(** X15. Toggling a favorite from the list: with a user signed in,
    exactly one request is sent, an update of the row with the clicked
    bookmark's id and the user's id, that sets the favorite flag to
    false when the bookmark's flag is true and to true when it is false
    or null, with the current time as last-modified stamp. Whatever the
    answer, no row is left marked as updating, every other field of the
    list component (delete mark, edit mode, edit fields, tweens) is as
    before, and the form is not touched. *)
Theorem favorite_toggle_flips_flag :
  forall (env : Env) (w : World) (bookmark : Bookmark),
    let s := blist w in
    let w' := exec (App.clickFavorite env bookmark) w in
    blist w'
    = ListState.mk (ListState.deleting s) None (ListState.editingId s)
        (ListState.editTitle s) (ListState.editUrl s)
        (ListState.editDescription s) (ListState.tweenedOut s) /\
    form w' = form w /\
    (forall u, PageState.user (page w) = Some u ->
       sent w' = sent w ++
         [Postgrest.update "bookmarks"
            (Postgrest.FavoriteFields
               (match is_favorite bookmark with
                | Some true => false
                | Some false | None => true
                end)
               (toISOString_now env))
            [Postgrest.eq "id" (id bookmark);
             Postgrest.eq "user_id" (uid u)]]).
Proof.
  intros env w bookmark s w'. subst s w'.
  set (w1 := exec (BookmarkList.setUpdating (Some (id bookmark))) w).
  destruct (pageOnly_handleToggleFavorite env (id bookmark)
              (BookmarksPage.Boolean (is_favorite bookmark)) w1)
    as [pg [s Hrun]].
  pose proof (clickFavorite_run env w bookmark pg s Hrun) as Hres.
  unfold exec. rewrite Hres. simpl.
  split; [reflexivity |]. split; [reflexivity |].
  intros u Hu.
  destruct (handleToggleFavorite_run env u (id bookmark)
              (BookmarksPage.Boolean (is_favorite bookmark)) w1 Hu)
    as [pg' [Hrun' _]].
  rewrite Hrun' in Hrun. injection Hrun as _ <-.
  unfold toggleRequest, ownRow.
  destruct (is_favorite bookmark) as [[|] |]; reflexivity.
Qed.

Lemma favorite_toggle_flips_flag_witness :
  let w := Example.signedIn Example.env in
  PageState.user (page w) = Some Example.me /\
  sent (exec (App.clickFavorite Example.env Example.foreign) w)
  = sent w ++
    [Postgrest.update "bookmarks"
       (Postgrest.FavoriteFields true Example.clock)
       [Postgrest.eq "id" "b9"; Postgrest.eq "user_id" "me"]].
Proof.
  intros w. split; [reflexivity |].
  exact (proj2 (proj2
           (favorite_toggle_flips_flag Example.env w Example.foreign))
           Example.me eq_refl).
Defined.

(** Once the length of the rendered list changes, every rendered item
    is in view again, also one that a delete had moved out. *)
Lemma entranceEffect_shows_all :
  forall w,
    BookmarkList.displayed (exec BookmarkList.entranceEffect w)
    = BookmarkList.props_bookmarks w.
Proof.
  intro w. unfold BookmarkList.entranceEffect, exec, bind, readWorld.
  cbn [fst snd].
  destruct (BookmarkList.props_bookmarks w) as [| b l] eqn:E.
  - simpl. unfold BookmarkList.displayed. rewrite E. reflexivity.
  - cbn [length Nat.ltb Nat.leb]. unfold BookmarkList.displayed.
    simpl. unfold BookmarkList.props_bookmarks in *. simpl. rewrite E.
    apply filter_id_when_all. intros x _. reflexivity.
Qed.

(** X16. Clicking delete in the list, with a user signed in: exactly one
    request is sent, a delete of the rows with the clicked id and the
    user's id; the row's delete button is marked as deleting; and the
    item is tweened out of view exactly when it is rendered. *)
Theorem delete_click_sends_scoped_delete :
  forall (env : Env) (w : World) (u : User) (id0 : string),
    PageState.user (page w) = Some u ->
    let w' := exec (App.clickDelete env id0) w in
    sent w' = sent w ++
      [Postgrest.delete "bookmarks"
         [Postgrest.eq "id" id0; Postgrest.eq "user_id" (uid u)]] /\
    ListState.deleting (blist w') = Some id0 /\
    ListState.tweenedOut (blist w')
    = if existsb (fun b => String.eqb (id b) id0)
           (PageState.filteredBookmarks (page w))
      then id0 :: ListState.tweenedOut (blist w)
      else ListState.tweenedOut (blist w).
Proof.
  intros env w u id0 Hu w'. subst w'.
  split.
  - unfold exec, App.clickDelete, BookmarkList.handleDelete,
      BookmarkList.handleDelete_start, BookmarkList.querySelector,
      BookmarkList.tweenOut, BookmarkList.setDeleting, BookmarkList.props_bookmarks.
    unfold bind at 1 2 3 4. unfold readWorld, modifyList, ret, try_catch.
    destruct (existsb _ _); cbn [fst snd];
      match goal with
      | |- context [BookmarksPage.handleDeleteBookmark env id0 ?w1] =>
          destruct (handleDeleteBookmark_run env u id0 w1 Hu) as [pg [Hrun _]];
          rewrite Hrun
      end; reflexivity.
  - rewrite clickDelete_never_rolls_back.
    unfold exec, App.clickDelete_start, BookmarkList.handleDelete_start,
      BookmarkList.querySelector, BookmarkList.tweenOut,
      BookmarkList.setDeleting, BookmarkList.props_bookmarks,
      bind, readWorld, modifyList, ret, JS.strict_eq.
    cbn [fst snd].
    destruct (existsb _ _); split; reflexivity.
Qed.

Lemma delete_click_sends_scoped_delete_witness :
  let w := Example.signedIn Example.env in
  let w' := exec (App.clickDelete Example.env "b1") w in
  PageState.user (page w) = Some Example.me /\
  sent w' = sent w ++
    [Postgrest.delete "bookmarks"
       [Postgrest.eq "id" "b1"; Postgrest.eq "user_id" "me"]] /\
  ListState.deleting (blist w') = Some "b1".
Proof.
  intros w w'. split; [reflexivity |].
  destruct (delete_click_sends_scoped_delete Example.env w Example.me "b1"
              eq_refl) as [Hsent [Hdel _]].
  split; [exact Hsent | exact Hdel].
Defined.

(** ** The domain shown in the list *)

Lemma slice_app :
  forall a b, Domain.slice (String.length a) (a ++ b)%string = b.
Proof. induction a as [| c a IH]; intro b; simpl; [reflexivity | apply IH]. Qed.

Lemma prefix_app : forall a b, String.prefix a (a ++ b)%string = true.
Proof. intros a b. apply prefix_iff. exists b. reflexivity. Qed.

Lemma replace_absent :
  forall s pattern replacement,
    JS.includes s pattern = false -> Domain.replace s pattern replacement = s.
Proof.
  induction s as [| c s IH]; intros pattern replacement H;
    cbn [JS.includes] in H; apply orb_false_iff in H; destruct H as [Hp Hr];
    cbn [Domain.replace]; rewrite Hp; [reflexivity |].
  rewrite (IH _ _ Hr). reflexivity.
Qed.

Lemma replace_first :
  forall pre pattern post replacement,
    firstOccurrenceAfter pre pattern post ->
    Domain.replace (pre ++ pattern ++ post)%string pattern replacement
    = (pre ++ replacement ++ post)%string.
Proof.
  induction pre as [| c pre IH]; intros pattern post replacement Hfirst.
  - cbn [append]. destruct (pattern ++ post)%string eqn:E.
    + destruct pattern; [| discriminate]. simpl in E. subst post.
      reflexivity.
    + rewrite <- E. clear E.
      assert (H : Domain.replace (pattern ++ post) pattern replacement
                  = (replacement ++ Domain.slice (String.length pattern)
                                      (pattern ++ post))%string).
      { destruct (pattern ++ post)%string eqn:E'.
        - destruct pattern; [reflexivity | discriminate].
        - rewrite <- E'. cbn [Domain.replace].
          rewrite E' at 1. cbn [Domain.replace].
          rewrite <- E'. rewrite prefix_app. reflexivity. }
      rewrite H, slice_app. reflexivity.
  - cbn [append Domain.replace].
    change (String c (pre ++ pattern ++ post))%string
      with ((String c pre) ++ pattern ++ post)%string.
    rewrite (Hfirst "" (String c pre) Logic.eq_refl) by discriminate.
    cbn [append]. f_equal. apply IH.
    intros a b Hab Hb. apply (Hfirst (String c a) b); [| exact Hb].
    simpl. rewrite Hab. reflexivity.
Qed.

(** X17. [getDomain]. For a string that is not a URL it gives the
    string back. Otherwise it gives the URL's host name with the first
    occurrence of "www." removed, wherever it is: a host without "www."
    is shown as it is, a leading "www." is dropped, and one further in
    (and only the first) is cut out of the middle of the name. *)
Theorem getDomain_strips_first_www :
  forall (hostname : string -> option string) (urlString : string),
    (hostname urlString = None ->
       Domain.getDomain hostname urlString = urlString) /\
    (forall h, hostname urlString = Some h ->
       (JS.includes h "www." = false ->
          Domain.getDomain hostname urlString = h) /\
       (forall rest, h = ("www." ++ rest)%string ->
          Domain.getDomain hostname urlString = rest) /\
       (forall pre post,
           h = (pre ++ "www." ++ post)%string ->
           firstOccurrenceAfter pre "www." post ->
           Domain.getDomain hostname urlString = (pre ++ post)%string)).
Proof.
  intros hostname urlString. unfold Domain.getDomain. split.
  - intro H. rewrite H. reflexivity.
  - intros h H. rewrite H. split; [| split].
    + intro Habs. apply replace_absent. exact Habs.
    + intros rest ->.
      apply (replace_first "" "www." rest "").
      intros a b Hab Hb. destruct a; destruct b; try discriminate.
      exfalso. apply Hb. reflexivity.
    + intros pre post -> Hfirst.
      apply (replace_first pre "www." post "" Hfirst).
Qed.

Lemma getDomain_strips_first_www_witness :
  httpsHost "https://www.rocq-prover.org/docs" = Some "www.rocq-prover.org" /\
  Domain.getDomain httpsHost "https://www.rocq-prover.org/docs"
  = "rocq-prover.org" /\
  httpsHost "not-a-url" = None /\
  Domain.getDomain httpsHost "not-a-url" = "not-a-url".
Proof.
  destruct (getDomain_strips_first_www httpsHost
              "https://www.rocq-prover.org/docs") as [_ Hsome].
  destruct (Hsome "www.rocq-prover.org" eq_refl) as [_ [Hlead _]].
  split; [reflexivity |]. split; [exact (Hlead "rocq-prover.org" eq_refl) |].
  split; [reflexivity |].
  apply (proj1 (getDomain_strips_first_www httpsHost "not-a-url")).
  reflexivity.
Defined.

Example getDomain_inner_www :
  Domain.getDomain httpsHost "https://news.www.example.com/a"
  = "news.example.com".
Proof. reflexivity. Qed.

(** ** Sign-in page and session gate *)

(** X18. The reasons the OAuth callback gives are the ones the sign-in
    page explains. Every redirect the handler returns, on any of its
    paths, goes to the next target or to "/auth?error=<code>" with a
    code for which the page has a non-empty message; and the page has a
    message for the codes auth_failed and no_code only, so any other
    error code in the URL shows none. *)
Theorem callback_reasons_are_explained :
  forall (createClient : Completion unit)
         (exchangeCodeForSession : string -> AuthCallback.Exchange)
         (URL_resolves : string -> string -> bool)
         (request : AuthCallback.NextRequest),
    (forall response,
        AuthCallback.GET createClient exchangeCodeForSession URL_resolves
          request = Normal response ->
        exists target,
          response
          = AuthCallback.redirect target (AuthCallback.request_url request) /\
          (target = AuthCallback.nextTarget request \/
           exists code message,
             target = ("/auth?error=" ++ code)%string /\
             AuthPage.queryAuthError (Some code) = Some message /\
             message <> "")) /\
    (forall e,
        AuthPage.queryAuthError (Some e) <> None <->
        e = "auth_failed" \/ e = "no_code").
Proof.
  intros createClient ex resolves request. split.
  - assert (Hcode : forall code message response,
               AuthPage.queryAuthError (Some code) = Some message ->
               message <> "" ->
               AuthCallback.redirectTo resolves ("/auth?error=" ++ code)
                 request = Normal response ->
               exists target,
                 response
                 = AuthCallback.redirect target
                     (AuthCallback.request_url request) /\
                 (target = AuthCallback.nextTarget request \/
                  exists code message,
                    target = ("/auth?error=" ++ code)%string /\
                    AuthPage.queryAuthError (Some code) = Some message /\
                    message <> "")).
    { intros code message response Hq Hm H.
      unfold AuthCallback.redirectTo in H.
      destruct (resolves _ _); [| discriminate].
      injection H as <-. eexists. split; [reflexivity |].
      right. exists code, message. auto. }
    assert (Hno := fun response =>
              Hcode "no_code" _ response Logic.eq_refl
                ltac:(discriminate)).
    assert (Hfail := fun response =>
              Hcode "auth_failed" _ response Logic.eq_refl
                ltac:(discriminate)).
    intros response. unfold AuthCallback.GET.
    destruct (AuthCallback.get (AuthCallback.searchParams request) "code")
      as [c |]; [| apply Hno].
    destruct (JS.truthy c); [| apply Hno].
    destruct createClient as [u | e]; [| discriminate].
    unfold AuthCallback.awaitExchange.
    destruct (ex c) as [r | e]; [| apply Hfail].
    unfold AuthCallback.redirectTo at 1.
    destruct (resolves (AuthCallback.nextTarget request) _); [| apply Hfail].
    intro H. injection H as <-. eexists. split; [reflexivity |].
    left. reflexivity.
  - intro e. unfold AuthPage.queryAuthError.
    destruct (JS.strict_eq e "auth_failed") eqn:E1.
    + apply strict_eq_true in E1. split; [auto | discriminate].
    + destruct (JS.strict_eq e "no_code") eqn:E2.
      * apply strict_eq_true in E2. split; [auto | discriminate].
      * apply strict_eq_false in E1. apply strict_eq_false in E2.
        split; [congruence |]. intros [H | H]; contradiction.
Qed.

Lemma callback_reasons_are_explained_witness :
  let response := AuthCallback.redirect "/auth?error=auth_failed"
                    CallbackExample.callback_url in
  AuthCallback.GET CallbackExample.client CallbackExample.accepting
    CallbackExample.resolves CallbackExample.unparseable_next
  = Normal response /\
  exists target,
    response = AuthCallback.redirect target CallbackExample.callback_url /\
    (target = AuthCallback.nextTarget CallbackExample.unparseable_next \/
     exists code message,
       target = ("/auth?error=" ++ code)%string /\
       AuthPage.queryAuthError (Some code) = Some message /\
       message <> "").
Proof.
  intros response. split; [reflexivity |].
  apply (proj1 (callback_reasons_are_explained CallbackExample.client
                  CallbackExample.accepting CallbackExample.resolves
                  CallbackExample.unparseable_next)).
  reflexivity.
Defined.

(** X19. [handleGoogleSignIn]. The sign-in button stays disabled
    (signing in) exactly when the sign-in call resolved without an
    error. When the call answers with an error its message becomes the
    page's error, when it throws the error is "Unable to start Google
    sign-in.", in both cases ahead of a reason from the URL; a sign-in
    that started leaves the reason from the URL as the page's error. *)
Theorem handleGoogleSignIn_outcomes :
  forall (result : AuthPage.SignIn) (s : AuthPage.State)
         (searchParamError : option string),
    let s' := AuthPage.handleGoogleSignIn result s in
    (AuthPage.isSigningIn s' = true <-> result = AuthPage.Answers None) /\
    (forall m, result = AuthPage.Answers (Some m) ->
       AuthPage.authError s' searchParamError = Some m) /\
    (result = AuthPage.Fails ->
       AuthPage.authError s' searchParamError
       = Some "Unable to start Google sign-in.") /\
    (result = AuthPage.Answers None ->
       AuthPage.authError s' searchParamError
       = AuthPage.queryAuthError searchParamError).
Proof.
  intros result s spe s'. subst s'.
  destruct result as [[m |] |]; simpl; unfold AuthPage.authError; simpl.
  - split; [split; discriminate |]. split.
    + intros m0 H. injection H as <-. reflexivity.
    + split; discriminate.
  - split; [split; reflexivity |]. split; [discriminate |].
    split; [discriminate | reflexivity].
  - split; [split; discriminate |]. split; [discriminate |].
    split; [reflexivity | discriminate].
Qed.

Lemma handleGoogleSignIn_outcomes_witness :
  let s' := AuthPage.handleGoogleSignIn
              (AuthPage.Answers (Some "provider is not enabled"))
              AuthPage.initial in
  AuthPage.authError s' (Some "no_code") = Some "provider is not enabled" /\
  AuthPage.isSigningIn s' = false.
Proof.
  intros s'.
  destruct (handleGoogleSignIn_outcomes
              (AuthPage.Answers (Some "provider is not enabled"))
              AuthPage.initial (Some "no_code")) as [_ [Herr _]].
  split; [exact (Herr _ eq_refl) | reflexivity].
Defined.

Lemma loadBookmarks_returns :
  forall env w, exists pg s,
    BookmarksPage.loadBookmarks env w
    = (Normal tt, mkWorld pg (form w) (blist w) s) /\
    PageState.user pg = PageState.user (page w) /\
    PageState.isLoading pg = PageState.isLoading (page w).
Proof.
  intros env w. unfold BookmarksPage.loadBookmarks, try_catch.
  destruct (getSession env) as [session |].
  - unfold bind, BookmarksPage.await, BookmarksPage.throwIf,
      BookmarksPage.setBookmarks, BookmarksPage.setError, modifyPage, throw, ret.
    destruct (backend env _) as [[d [e |]] | reason]; simpl;
      eexists; eexists; (split; [reflexivity |]); split; reflexivity.
  - exists (page w), (sent w). destruct w; simpl. auto.
Qed.

Lemma mount_run_session :
  forall env w session pg s,
    getSession env = Some session ->
    BookmarksPage.loadBookmarks env
      (exec (BookmarksPage.setUser (Some (user session))) w)
    = (Normal tt, mkWorld pg (form w) (blist w) s) ->
    Mount.checkAuthAndLoadBookmarks env w
    = (Normal (Mount.mkOutcome None (Mount.setupRealtimeListener env)),
       exec (BookmarksPage.setIsLoading false)
         (mkWorld pg (form w) (blist w) s)).
Proof.
  intros env w session pg s Hs Hrun.
  unfold Mount.checkAuthAndLoadBookmarks, try_finally, try_catch.
  rewrite Hs. unfold bind at 1.
  unfold exec in Hrun.
  destruct (BookmarksPage.setUser (Some (user session)) w) as [c0 w1] eqn:E0.
  unfold BookmarksPage.setUser, modifyPage in E0. injection E0 as <- <-.
  cbn [snd] in Hrun. unfold bind at 1. rewrite Hrun. reflexivity.
Qed.

(** X20. The mount effect of the bookmarks page. It always ends with
    the loading flag off. With no session it pushes "/auth", sends
    nothing, subscribes to nothing and leaves the Store and the user
    unset as they were. With a session it pushes nothing, stores the
    session's user, sends the read of Load, and subscribes one channel
    whose topic and row filter name the session's user id and whose
    callback applies change events under the guard for that same id. *)
Theorem mount_effect_outcomes :
  forall (env : Env) (w : World),
    let w' := exec (Mount.checkAuthAndLoadBookmarks env) w in
    let result := completion (Mount.checkAuthAndLoadBookmarks env) w in
    PageState.isLoading (page w') = false /\
    (getSession env = None ->
       result = Normal (Mount.mkOutcome (Some "/auth") None) /\
       sent w' = sent w /\
       PageState.bookmarks (page w') = PageState.bookmarks (page w) /\
       PageState.user (page w') = PageState.user (page w)) /\
    (forall session, getSession env = Some session ->
       let me := uid (user session) in
       PageState.user (page w') = Some (user session) /\
       sent w' = sent w ++ [loadRequest session] /\
       exists channel,
         result = Normal (Mount.mkOutcome None (Some channel)) /\
         Mount.topic channel = ("bookmarks:" ++ me)%string /\
         Mount.table channel = "bookmarks" /\
         Mount.filter channel = ("user_id=eq." ++ me)%string /\
         (forall p w0,
             PageState.bookmarks (page (exec (Mount.callback channel p) w0))
             = Store.onChange me p (PageState.bookmarks (page w0)))).
Proof.
  intros env w w' result. subst w' result.
  destruct (getSession env) as [session |] eqn:Hs.
  - destruct (loadBookmarks_returns env
                (exec (BookmarksPage.setUser (Some (user session))) w))
      as [pg [s [Hrun [Hu Hl]]]].
    pose proof (loadBookmarks_run env session
                  (exec (BookmarksPage.setUser (Some (user session))) w) Hs)
      as [Hsent _].
    unfold exec at 1 in Hsent. rewrite Hrun in Hsent. simpl in Hsent, Hrun.
    pose proof (mount_run_session env w session pg s Hs Hrun) as Hres.
    unfold exec, completion. rewrite Hres. simpl.
    split; [reflexivity |]. split; [discriminate |].
    intros session0 H0. injection H0 as <-.
    split; [exact Hu |]. split; [exact Hsent |].
    unfold Mount.setupRealtimeListener. rewrite Hs.
    eexists. split; [reflexivity |]. simpl.
    repeat (split; [reflexivity |]). intros p w0. reflexivity.
  - unfold exec, completion, Mount.checkAuthAndLoadBookmarks,
      try_finally, try_catch.
    rewrite Hs. simpl. split; [reflexivity |]. split.
    + intros _. repeat split; reflexivity.
    + intros session H. discriminate H.
Qed.

Lemma mount_effect_outcomes_witness :
  getSession Example.env = Some Example.session /\
  PageState.user (page (exec (Mount.checkAuthAndLoadBookmarks Example.env)
                          initialWorld)) = Some Example.me /\
  sent (exec (Mount.checkAuthAndLoadBookmarks Example.env) initialWorld)
  = [loadRequest Example.session].
Proof.
  split; [reflexivity |].
  destruct (mount_effect_outcomes Example.env initialWorld) as [_ [_ Hin]].
  destruct (Hin Example.session eq_refl) as [Hu [Hsent _]].
  split; [exact Hu | exact Hsent].
Defined.

(** X21. The session gate settles after one push at most. Whatever page
    a visit enters (home, sign-in or bookmarks), after that page's push
    the visit is on the bookmarks page if there is a session and on the
    sign-in page if there is none, and the page it is on then pushes
    nothing more. *)
Theorem session_gate_settles :
  forall (env : Env) (w w' : World) (r : Route),
    let landed := afterEnter env w r in
    (getSession env = None -> landed = auth) /\
    (getSession env <> None -> landed = bookmarks_page) /\
    pushOnEnter env w' landed = None.
Proof.
  intros env w w' r landed. subst landed.
  assert (Hb : forall w0,
             pushOnEnter env w0 bookmarks_page
             = match getSession env with
               | Some _ => None
               | None => Some "/auth"
               end).
  { intro w0. unfold pushOnEnter.
    destruct (mount_effect_outcomes env w0) as [_ [Hnone Hsome]].
    destruct (getSession env) as [session |].
    - destruct (Hsome session Logic.eq_refl) as [_ [_ [ch [Hres _]]]].
      rewrite Hres. reflexivity.
    - destruct (Hnone Logic.eq_refl) as [Hres _]. rewrite Hres. reflexivity. }
  assert (Ha : forall w0,
             pushOnEnter env w0 auth
             = match getSession env with
               | Some _ => Some "/bookmarks"
               | None => None
               end).
  { intro w0. unfold pushOnEnter. simpl.
    destruct (getSession env); reflexivity. }
  assert (Hh : forall w0,
             pushOnEnter env w0 home
             = match getSession env with
               | Some _ => Some "/bookmarks"
               | None => Some "/auth"
               end).
  { intro w0. unfold pushOnEnter, Home.checkAuth.
    destruct (getSession env); reflexivity. }
  unfold afterEnter.
  destruct (getSession env) as [session |] eqn:Hs;
    destruct r; rewrite ?Hh, ?Ha, ?Hb;
    cbn [routeOf String.eqb Ascii.eqb Bool.eqb andb];
    rewrite ?Ha, ?Hb;
    (split; [intro H; try discriminate H; reflexivity |]);
    (split; [intro H; try reflexivity; exfalso; apply H; reflexivity |]);
    reflexivity.
Qed.

Lemma session_gate_settles_witness :
  getSession Example.env <> None /\
  afterEnter Example.env initialWorld home = bookmarks_page /\
  afterEnter Example.env initialWorld auth = bookmarks_page.
Proof.
  assert (H : getSession Example.env <> None) by discriminate.
  split; [exact H |]. split.
  - exact (proj1 (proj2 (session_gate_settles Example.env initialWorld
                           initialWorld home)) H).
  - exact (proj1 (proj2 (session_gate_settles Example.env initialWorld
                           initialWorld auth)) H).
Defined.

(** ** From the mount effect to the display list *)

Lemma mount_store :
  forall env w session,
    getSession env = Some session ->
    PageState.bookmarks (page (exec (Mount.checkAuthAndLoadBookmarks env) w))
    = PageState.bookmarks
        (page (exec (BookmarksPage.loadBookmarks env)
                 (exec (BookmarksPage.setUser (Some (user session))) w))).
Proof.
  intros env w session Hs.
  destruct (loadBookmarks_returns env
              (exec (BookmarksPage.setUser (Some (user session))) w))
    as [pg [s [Hrun _]]].
  simpl in Hrun.
  rewrite (f_equal snd (mount_run_session env w session pg s Hs Hrun)
           : exec (Mount.checkAuthAndLoadBookmarks env) w = _).
  unfold exec at 2. rewrite Hrun. reflexivity.
Qed.

(** X22. Only own rows reach the screen. With a session signed in and a
    backing store that answers the read of Load with rows of that user
    only, after the mount effect, any run of change events delivered to
    the listener and the filter effect, every bookmark of the display
    list, and so every item in view, has the session's user id, for
    every query and favorites toggle. *)
Theorem display_list_shows_own_rows_only :
  forall (env : Env) (session : Session) (events : list Payload) (w : World),
    let me := uid (user session) in
    getSession env = Some session ->
    owned me (PageState.bookmarks (page w)) ->
    (forall r d,
        backend env (loadRequest session) = Postgrest.Fulfilled r ->
        Postgrest.data r = Some d -> owned me d) ->
    let mounted := exec (Mount.checkAuthAndLoadBookmarks env) w in
    let final := exec (BookmarksPage.filterEffect env)
                   (deliver session events mounted) in
    owned me (PageState.filteredBookmarks (page final)) /\
    owned me (BookmarkList.displayed final).
Proof.
  intros env session events w me Hs Hw Hb mounted final.
  assert (Hm : owned me (PageState.bookmarks (page mounted))).
  { subst mounted. rewrite (mount_store env w session Hs).
    set (w1 := exec (BookmarksPage.setUser (Some (user session))) w).
    destruct (loadBookmarks_run env session w1 Hs) as [_ Hstore].
    destruct Hstore as [Hsame | [r [Hr [_ Hdata]]]].
    - rewrite Hsame. exact Hw.
    - rewrite Hdata. destruct (Postgrest.data r) as [d |] eqn:Ed.
      + exact (Hb r d Hr Ed).
      + constructor. }
  assert (Hd : owned me (PageState.bookmarks
                           (page (deliver session events mounted)))).
  { subst me. apply deliver_owned. exact Hm. }
  assert (Hf : owned me (PageState.filteredBookmarks (page final))).
  { subst final.
    destruct (filterEffect_result env (deliver session events mounted))
      as [-> _].
    unfold owned, BookmarksPage.Filter in *. rewrite Forall_forall in *.
    intros b Hin. apply filter_In in Hin. apply Hd. apply Hin. }
  split; [exact Hf |].
  unfold BookmarkList.displayed, BookmarkList.props_bookmarks, owned in *.
  rewrite Forall_forall in *. intros b Hin. apply filter_In in Hin.
  apply Hf. apply Hin.
Qed.

Lemma display_list_shows_own_rows_only_witness :
  let mounted := exec (Mount.checkAuthAndLoadBookmarks Example.env)
                   initialWorld in
  let final := exec (BookmarksPage.filterEffect Example.env)
                 (deliver Example.session [Example.fabricated] mounted) in
  getSession Example.env = Some Example.session /\
  owned "me" (PageState.bookmarks (page initialWorld)) /\
  (forall r d,
      backend Example.env (loadRequest Example.session) = Postgrest.Fulfilled r ->
      Postgrest.data r = Some d -> owned "me" d) /\
  owned "me" (PageState.filteredBookmarks (page final)).
Proof.
  intros mounted final.
  assert (H0 : owned "me" (PageState.bookmarks (page initialWorld)))
    by constructor.
  assert (H1 : forall r d,
             backend Example.env (loadRequest Example.session)
             = Postgrest.Fulfilled r ->
             Postgrest.data r = Some d -> owned "me" d).
  { intros r d Hr Hd.
    destruct (serve_select_owned Example.db "me" "bookmarks" "*"
                "created_at" false r Hr) as [d' [Hd' [_ Hown]]].
    rewrite Hd in Hd'. injection Hd' as <-. exact Hown. }
  split; [reflexivity |]. split; [exact H0 |]. split; [exact H1 |].
  exact (proj1 (display_list_shows_own_rows_only Example.env Example.session
                  [Example.fabricated] initialWorld eq_refl H0 H1)).
Defined.
